(** * Notes service: request handlers and the browser-side AWS helper

    A shallow embedding of [src/list.js], which holds three JavaScript
    modules: the [list] handler, the client helper library ([authUser],
    [signOutUser], [invokeApig], [s3Upload]) and the [delete] handler.

    JavaScript values are a small inductive type; an [async] function is a
    computation in a state-and-exception monad that also records, in
    order, every call it makes to an outside collaborator (identity
    provider, federation service, request signer, HTTP transport, object
    storage, console, the handler's callback).  A rejected promise and a
    thrown exception are the same outcome, [Rejected]. *)

From Stdlib Require Import ZArith String List Bool Lia DecimalString.
From Stdlib Require Import DecimalPos DecimalZ.
Import ListNotations.
Local Open Scope string_scope.
Local Open Scope Z_scope.

(** ** JavaScript values *)

Module Js.

#[local] Set Warnings "-register-all".

Inductive JsVal : Type :=
| VUndefined
| VNull
| VBool (b : bool)
| VNum (z : Z)
| VStr (s : string)
| VArr (items : list JsVal)
| VObj (fields : list (string * JsVal))
| VError (name message : string).

(** [new Error(message)] *)
Definition newError (message : string) : JsVal := VError "Error" message.

(** What the engine throws on a property read of [undefined] or [null]. *)
Definition typeError : JsVal :=
  VError "TypeError" "Cannot read properties of undefined or null".

(** ToBoolean, as used by [if (v)], [v && w] and [v ? a : b]. *)
Definition truthy (v : JsVal) : bool :=
  match v with
  | VUndefined | VNull => false
  | VBool b => b
  | VNum z => negb (z =? 0)
  | VStr s => negb (String.eqb s "")
  | VArr _ | VObj _ | VError _ _ => true
  end.

Fixpoint lookup (k : string) (fields : list (string * JsVal)) : JsVal :=
  match fields with
  | [] => VUndefined
  | (k', v) :: rest => if String.eqb k k' then v else lookup k rest
  end.

(** [v.k] for the property names of this program (none is a built-in of
    String, Number or Array): [None] is the TypeError of reading a
    property of [undefined] or [null]; a property that is not there reads
    as [undefined]. *)
Definition getProp (v : JsVal) (k : string) : option JsVal :=
  match v with
  | VUndefined | VNull => None
  | VObj fields => Some (lookup k fields)
  | VError name message =>
      Some (if String.eqb k "message" then VStr message
            else if String.eqb k "name" then VStr name else VUndefined)
  | VBool _ | VNum _ | VStr _ | VArr _ => Some VUndefined
  end.

(** String(n) for an integer number below 10^21 in magnitude: its decimal
    digits. [Date.now()] is such a number. *)
Definition string_of_Z (z : Z) : string :=
  NilZero.string_of_int (Z.to_int z).

(** How a promise settles, or how a call returns: a value, or the value
    thrown. *)
Inductive Outcome (A : Type) : Type :=
| Resolved (a : A)
| Rejected (err : JsVal).
Arguments Resolved {A} a.
Arguments Rejected {A} err.

End Js.
Import Js.

(** ** Computations: state, exceptions and a record of outside calls *)

Section Computation.
Variables (St Ev : Type).

Record Run (A : Type) : Type := mkRun {
  outcome : Outcome A;
  final : St;
  calls : list Ev
}.

Definition M (A : Type) : Type := St -> Run A.

Definition ret {A} (a : A) : M A :=
  fun s => mkRun A (Resolved a) s [].

Definition throw {A} (err : JsVal) : M A :=
  fun s => mkRun A (Rejected err) s [].

Definition bind {A B} (m : M A) (k : A -> M B) : M B :=
  fun s =>
    match m s with
    | mkRun _ (Resolved a) s1 evs =>
        match k a s1 with
        | mkRun _ o s2 evs' => mkRun B o s2 (evs ++ evs')
        end
    | mkRun _ (Rejected err) s1 evs => mkRun B (Rejected err) s1 evs
    end.

(** [try { m } catch (err) { handler(err) }] *)
Definition tryCatch {A} (m : M A) (handler : JsVal -> M A) : M A :=
  fun s =>
    match m s with
    | mkRun _ (Resolved a) s1 evs => mkRun A (Resolved a) s1 evs
    | mkRun _ (Rejected err) s1 evs =>
        match handler err s1 with
        | mkRun _ o s2 evs' => mkRun A o s2 (evs ++ evs')
        end
    end.

Definition emit (e : Ev) : M unit :=
  fun s => mkRun unit (Resolved tt) s [e].

Definition gets {A} (f : St -> A) : M A :=
  fun s => mkRun A (Resolved (f s)) s [].

Definition modify (f : St -> St) : M unit :=
  fun s => mkRun unit (Resolved tt) (f s) [].

(** A settled promise, awaited. *)
Definition await {A} (o : Outcome A) : M A :=
  fun s => mkRun A o s [].

(** A property read that may throw. *)
Definition prop (v : JsVal) (k : string) : M JsVal :=
  match getProp v k with
  | Some x => ret x
  | None => throw typeError
  end.
End Computation.

Arguments outcome {St Ev A} _.
Arguments final {St Ev A} _.
Arguments calls {St Ev A} _.
Arguments mkRun {St Ev A} _ _ _.
Arguments ret {St Ev A} a _.
Arguments throw {St Ev A} err _.
Arguments bind {St Ev A B} m k _.
Arguments tryCatch {St Ev A} m handler _.
Arguments emit {St Ev} e _.
Arguments gets {St Ev A} f _.
Arguments modify {St Ev} f _.
Arguments await {St Ev A} o _.
Arguments prop {St Ev} v k _.

Declare Scope js_scope.
Delimit Scope js_scope with js.
Notation "x <- c1 ;; c2" := (bind c1 (fun x => c2))
  (at level 61, c1 at next level, right associativity) : js_scope.
Notation "c1 ;; c2" := (bind c1 (fun _ => c2))
  (at level 61, right associativity) : js_scope.
Local Open Scope js_scope.

(** ** The list and delete handlers *)

Module Handlers.

(** [./libs/response-lib] is imported, not defined, by the handlers: a
    response is kept as the helper that built it and the body it was
    given. *)
Inductive Envelope : Type :=
| success (body : JsVal)
| failure (body : JsVal).

Inductive HandlerEvent : Type :=
| DbCall (action : string) (params : JsVal)
| ConsoleLog (label : string) (v : JsVal)
| Callback (err : JsVal) (response : Envelope).

(** A handler keeps no state of its own. *)
Definition H (A : Type) : Type := M unit HandlerEvent A.

Definition callback (err : JsVal) (response : Envelope) : H unit :=
  emit (Callback err response).

Definition console_log (label : string) (v : JsVal) : H unit :=
  emit (ConsoleLog label v).

(** [{ status: b }] *)
Definition status (b : bool) : JsVal := VObj [("status", VBool b)].

Section WithDynamoDb.
(** [dynamoDbLib.call(action, params)], from [./libs/dynamodb-lib]: how
    its promise settles. *)
Variable dynamoDbLib_call : string -> JsVal -> Outcome JsVal.

Definition call (action : string) (params : JsVal) : H JsVal :=
  emit (DbCall action params) ;;
  await (dynamoDbLib_call action params).

(** [event.requestContext.identity.cognitoIdentityId] *)
Definition cognitoIdentityId (event : JsVal) : H JsVal :=
  requestContext <- prop event "requestContext" ;;
  identity <- prop requestContext "identity" ;;
  prop identity "cognitoIdentityId".

Definition list_params (userId : JsVal) : JsVal :=
  VObj [("TableName", VStr "notes");
        ("KeyConditionExpression", VStr "userId = :userId");
        ("ExpressionAttributeValues", VObj [(":userId", userId)])].

(** [main] of the list handler. *)
Definition list_main (event context : JsVal) : H unit :=
  userId <- cognitoIdentityId event ;;
  let params := list_params userId in
  tryCatch
    (result <- call "query" params ;;
     console_log "list result: " result ;;
     count <- prop result "Count" ;;
     console_log "list count: " count ;;
     items <- prop result "Items" ;;
     callback VNull (success items))
    (fun err => callback VNull (failure (status false))).

Definition delete_params (userId noteId : JsVal) : JsVal :=
  VObj [("TableName", VStr "notes");
        ("Key", VObj [("userId", userId); ("noteId", noteId)])].

(** [main] of the delete handler. *)
Definition delete_main (event context : JsVal) : H unit :=
  userId <- cognitoIdentityId event ;;
  pathParameters <- prop event "pathParameters" ;;
  noteId <- prop pathParameters "id" ;;
  let params := delete_params userId noteId in
  tryCatch
    (result <- call "delete" params ;;
     callback VNull (success (status true)))
    (fun err => callback VNull (failure (status false))).
End WithDynamoDb.

(** The callback invocations of a run, in order. *)
Fixpoint callbacks (evs : list HandlerEvent) : list (JsVal * Envelope) :=
  match evs with
  | [] => []
  | Callback err response :: rest => (err, response) :: callbacks rest
  | _ :: rest => callbacks rest
  end.

Definition responses (evs : list HandlerEvent) : list Envelope :=
  map snd (callbacks evs).

(** Whether the handler got as far as its database call. *)
Definition reachedDb (evs : list HandlerEvent) : bool :=
  existsb (fun e => match e with DbCall _ _ => true | _ => false end) evs.

(** The sentence of the specification on the handlers' responses, for one
    handler [main]: once the database call is made, the response is the
    result's items when the call succeeds and [{status: false}] when it
    fails. *)
Definition two_fixed_envelopes
    (main : (string -> JsVal -> Outcome JsVal) -> JsVal -> JsVal -> H unit)
    : Prop :=
  forall db event context action params,
    let evs := calls (main db event context tt) in
    In (DbCall action params) evs ->
    match db action params with
    | Resolved result =>
        forall items, getProp result "Items" = Some items ->
                      responses evs = [success items]
    | Rejected _ => responses evs = [failure (status false)]
    end.

(** An API Gateway event of a signed-in caller, for examples. *)
Definition sampleEvent : JsVal :=
  VObj [("requestContext",
         VObj [("identity",
                VObj [("cognitoIdentityId", VStr "us-east-1:1f2e")])]);
        ("pathParameters", VObj [("id", VStr "note-7")])].

(** A query that finds one note, a delete with DynamoDB's empty result,
    and a database call that fails. *)
Definition oneNote : string -> JsVal -> Outcome JsVal :=
  fun _ _ => Resolved (VObj [("Items", VArr [VStr "n"]); ("Count", VNum 1)]).

Definition emptyResult : string -> JsVal -> Outcome JsVal :=
  fun _ _ => Resolved (VObj []).

Definition throttled : string -> JsVal -> Outcome JsVal :=
  fun _ _ => Rejected (newError "throttled").

(** The database calls of a run, in order. *)
Fixpoint dbCalls (evs : list HandlerEvent) : list (string * JsVal) :=
  match evs with
  | [] => []
  | DbCall action params :: rest => (action, params) :: dbCalls rest
  | _ :: rest => dbCalls rest
  end.

(** An event of a route without path parameters. *)
Definition eventWithoutPath : JsVal :=
  VObj [("requestContext",
         VObj [("identity",
                VObj [("cognitoIdentityId", VStr "us-east-1:1f2e")])])].

(** A database call whose promise resolves with [null]. *)
Definition nullResult : string -> JsVal -> Outcome JsVal :=
  fun _ _ => Resolved VNull.

End Handlers.

(** ** The client helper library ([authUser] and its callers) *)

Module AwsLib.

(** [../config]: externally provisioned strings. *)
Record Config : Type := {
  cognito_USER_POOL_ID : string;
  cognito_APP_CLIENT_ID : string;
  cognito_REGION : string;
  cognito_IDENTITY_POOL_ID : string;
  apiGateway_REGION : string;
  apiGateway_URL : string;
  s3_BUCKET : string
}.

(** A signed-in user as the identity provider hands it out. *)
Record CognitoUser : Type := { username : string }.

(** The argument of [new AWS.CognitoIdentityCredentials(...)]. *)
Record CredentialParams : Type := {
  IdentityPoolId : option string;
  Logins : list (string * string)
}.

(** [AWS.config.credentials] when it holds an object. A field the SDK has
    not filled in is [None]; [expireTime] is then [null], otherwise a
    Date, kept as its milliseconds. *)
Record Credentials : Type := {
  params : CredentialParams;
  accessKeyId : option string;
  secretAccessKey : option string;
  sessionToken : option string;
  expireTime : option Z;
  identityId : option string
}.

(** What the federation service returns for a successful exchange. *)
Record CredentialData : Type := {
  data_accessKeyId : string;
  data_secretAccessKey : string;
  data_sessionToken : string;
  data_expiration : Z;
  data_identityId : string
}.

(** [new AWS.CognitoIdentityCredentials(p)]: nothing resolved yet. *)
Definition newCognitoIdentityCredentials (p : CredentialParams) : Credentials :=
  {| params := p; accessKeyId := None; secretAccessKey := None;
     sessionToken := None; expireTime := None; identityId := None |}.

(** [new AWS.CognitoIdentityCredentials({})] *)
Definition emptyCredentials : Credentials :=
  newCognitoIdentityCredentials {| IdentityPoolId := None; Logins := [] |}.

(** The credentials object after a failed exchange: nothing but the
    identity id can have been set. *)
Definition interrupted (c : Credentials) (id : option string) : Credentials :=
  {| params := params c; accessKeyId := accessKeyId c;
     secretAccessKey := secretAccessKey c; sessionToken := sessionToken c;
     expireTime := expireTime c; identityId := id |}.

(** The credentials object once its promise has resolved. *)
Definition resolved (c : Credentials) (d : CredentialData) : Credentials :=
  {| params := params c;
     accessKeyId := Some (data_accessKeyId d);
     secretAccessKey := Some (data_secretAccessKey d);
     sessionToken := Some (data_sessionToken d);
     expireTime := Some (data_expiration d);
     identityId := Some (data_identityId d) |}.

(** The argument of [sigV4Client.newClient]. *)
Record SigV4Config : Type := {
  accessKey : option string;
  secretKey : option string;
  sigv4_sessionToken : option string;
  region : string;
  endpoint : string
}.

(** The argument of [invokeApig]; [None] is a field left out, which
    takes the default of the destructuring pattern, as does a field
    passed as [undefined]. *)
Record ApigArgs : Type := {
  path : JsVal;
  method : option string;
  headers : option JsVal;
  queryParams : option JsVal;
  body : JsVal
}.

(** The argument of [signRequest], defaults applied. *)
Record SignArgs : Type := {
  sign_method : string;
  sign_path : JsVal;
  sign_headers : JsVal;
  sign_queryParams : JsVal;
  sign_body : JsVal
}.

Record SignedRequest : Type := {
  signed_headers : JsVal;
  signed_url : string
}.

(** The second argument of [fetch]. *)
Record FetchInit : Type := {
  fetch_method : string;
  fetch_headers : JsVal;
  fetch_body : JsVal
}.

(** A [fetch] response: its status and how [text()] and [json()] settle. *)
Record Response : Type := {
  status : Z;
  text : Outcome string;
  json : Outcome JsVal
}.

(** A browser File. *)
Record File : Type := {
  name : string;
  type : string
}.

(** The argument of [s3.upload]. *)
Record UploadParams : Type := {
  Key : string;
  Body : File;
  ContentType : string;
  ACL : string
}.

(** The calls the library makes to its collaborators. *)
Inductive Event : Type :=
| GetCurrentUser (UserPoolId ClientId : string)
| GetSession (user : CognitoUser)
| UserSignOut (user : CognitoUser)
| ConfigUpdate (region : string)
| GetPromise (p : CredentialParams)
| ClearCachedId
| SignRequest (client : SigV4Config) (request : SignArgs)
| Fetch (url : string) (init : FetchInit) (result : Outcome Response)
| S3Upload (Bucket : string) (p : UploadParams)
| Log (message : string).

(** The process-wide state the library reads and writes:
    [AWS.config.credentials] ([None] when it is [null] or [undefined]),
    [AWS.config.region], the user the identity provider has stored, and
    how many times the clock has been read. *)
Record State : Type := {
  credentials : option Credentials;
  config_region : option string;
  currentUser : option CognitoUser;
  clockReads : nat
}.

(** The outside world. *)
Record Env : Type := {
  (** [Date.now()] at the n-th read of the clock *)
  now : nat -> Z;
  (** [user.getSession(cb)]: the arguments [cb] is called with, [err] and
      the JWT of the session's id token when there is a session *)
  getSession : CognitoUser -> JsVal * option string;
  (** [credentials.getPromise()]: the outcome of the exchange *)
  getPromise : CredentialParams -> Outcome CredentialData;
  (** the identity id the SDK has put on the credentials object by the
      time the exchange fails, if it got that far *)
  getPromise_identityId : CredentialParams -> option string;
  (** [sigV4Client.newClient(c).signRequest(r)] *)
  signRequest : SigV4Config -> SignArgs -> SignedRequest;
  (** [JSON.stringify] *)
  JSON_stringify : JsVal -> string;
  (** [fetch(url, init)] *)
  fetch : string -> FetchInit -> Outcome Response;
  (** [s3.upload(p).promise()] on a client bound to the bucket *)
  s3_upload : string -> UploadParams -> Outcome JsVal
}.

Definition A (T : Type) : Type := M State Event T.

Definition set_credentials (c : option Credentials) (s : State) : State :=
  {| credentials := c; config_region := config_region s;
     currentUser := currentUser s; clockReads := clockReads s |}.

Definition set_region (r : string) (s : State) : State :=
  {| credentials := credentials s; config_region := Some r;
     currentUser := currentUser s; clockReads := clockReads s |}.

Definition set_currentUser (u : option CognitoUser) (s : State) : State :=
  {| credentials := credentials s; config_region := config_region s;
     currentUser := u; clockReads := clockReads s |}.

Definition tick (s : State) : State :=
  {| credentials := credentials s; config_region := config_region s;
     currentUser := currentUser s; clockReads := S (clockReads s) |}.

(** ToNumber of [expireTime]: [null] is 0, a Date its milliseconds.
    Millisecond timestamps are integers well inside the range a JavaScript
    number holds exactly, so the subtraction and the comparison of the
    source are those of [Z]. *)
Definition expireTime_toNumber (c : Credentials) : Z :=
  match expireTime c with
  | Some ms => ms
  | None => 0
  end.

(** [`${v}`] of a field that may be [undefined]. *)
Definition template (v : option string) : string :=
  match v with
  | Some s => s
  | None => "undefined"
  end.

Section WithEnv.
Variable config : Config.
Variable env : Env.

(** [Date.now()] *)
Definition Date_now : A Z :=
  t <- gets (fun s => now env (clockReads s)) ;;
  modify tick ;;
  ret t.

(** The test of [authUser]'s first [if]:
    [AWS.config.credentials &&
     Date.now() < AWS.config.credentials.expireTime - 60000].
    The clock is read only when a credentials object is there. *)
Definition hasValidCredentials : A bool :=
  cached <- gets credentials ;;
  match cached with
  | None => ret false
  | Some c =>
      t <- Date_now ;;
      ret (t <? expireTime_toNumber c - 60000)
  end.

Definition getCurrentUser : A (option CognitoUser) :=
  emit (GetCurrentUser (cognito_USER_POOL_ID config)
                       (cognito_APP_CLIENT_ID config)) ;;
  gets currentUser.

(** The promise around [currentUser.getSession]: rejected with [err]
    when [err] is truthy, else resolved with
    [session.getIdToken().getJwtToken()], which throws when there is no
    session to read. What the identity provider does to its own stored
    user while it looks for a session is not part of this program and is
    left out: nothing below speaks of the stored user after a session
    request that failed. *)
Definition getUserToken (user : CognitoUser) : A string :=
  emit (GetSession user) ;;
  let (err, session) := getSession env user in
  if truthy err then throw err
  else match session with
       | Some jwt => ret jwt
       | None => throw typeError
       end.

Definition authenticator : string :=
  "cognito-idp." ++ cognito_REGION config ++ ".amazonaws.com/"
    ++ cognito_USER_POOL_ID config.

(** The credentials object is assigned before its promise settles, and
    it is that object the SDK works on while the promise is pending: a
    resolved promise leaves it filled in, a rejected one leaves it without
    keys and expiry, with the identity id if that was obtained. *)
Definition getAwsCredentials (userToken : string) : A unit :=
  emit (ConfigUpdate (cognito_REGION config)) ;;
  modify (set_region (cognito_REGION config)) ;;
  let p := {| IdentityPoolId := Some (cognito_IDENTITY_POOL_ID config);
              Logins := [(authenticator, userToken)] |} in
  let fresh := newCognitoIdentityCredentials p in
  modify (set_credentials (Some fresh)) ;;
  emit (GetPromise p) ;;
  match getPromise env p with
  | Resolved d => modify (set_credentials (Some (resolved fresh d)))
  | Rejected err =>
      modify (set_credentials
                (Some (interrupted fresh (getPromise_identityId env p)))) ;;
      throw err
  end.

Definition authUser : A bool :=
  valid <- hasValidCredentials ;;
  if valid then ret true
  else
    user <- getCurrentUser ;;
    match user with
    | None => ret false
    | Some currentUser =>
        userToken <- getUserToken currentUser ;;
        getAwsCredentials userToken ;;
        ret true
    end.

Definition signOutUser : A unit :=
  user <- getCurrentUser ;;
  match user with
   | Some currentUser =>
       emit (UserSignOut currentUser) ;;
       modify (set_currentUser None)
   | None => ret tt
   end ;;
  cached <- gets credentials ;;
  match cached with
  | Some _ =>
      emit ClearCachedId ;;
      modify (set_credentials (Some emptyCredentials))
  | None => ret tt
  end.

(** [AWS.config.credentials], read for one of its fields. *)
Definition theCredentials : A Credentials :=
  cached <- gets credentials ;;
  match cached with
  | Some c => ret c
  | None => throw typeError
  end.

Definition default {T} (d : T) (v : option T) : T :=
  match v with
  | Some x => x
  | None => d
  end.

(** The default of a destructured field that holds a value: it applies
    when the field is left out and when it is [undefined]. *)
Definition defaultValue (d : JsVal) (v : option JsVal) : JsVal :=
  match v with
  | None | Some VUndefined => d
  | Some x => x
  end.

Definition invokeApig (args : ApigArgs) : A JsVal :=
  let method := default "GET" (method args) in
  let headers := defaultValue (VObj []) (headers args) in
  let queryParams := defaultValue (VObj []) (queryParams args) in
  ok <- authUser ;;
  if negb ok then throw (newError "User is not logged in")
  else
    c <- theCredentials ;;
    let client := {| accessKey := accessKeyId c;
                     secretKey := secretAccessKey c;
                     sigv4_sessionToken := sessionToken c;
                     region := apiGateway_REGION config;
                     endpoint := apiGateway_URL config |} in
    let request := {| sign_method := method; sign_path := path args;
                      sign_headers := headers;
                      sign_queryParams := queryParams;
                      sign_body := body args |} in
    emit (SignRequest client request) ;;
    let signedRequest := signRequest env client request in
    let body := if truthy (body args)
                then VStr (JSON_stringify env (body args))
                else body args in
    let headers := signed_headers signedRequest in
    let init := {| fetch_method := method; fetch_headers := headers;
                   fetch_body := body |} in
    let fetched := fetch env (signed_url signedRequest) init in
    emit (Fetch (signed_url signedRequest) init fetched) ;;
    results <- await fetched ;;
    if negb (status results =? 200) then
      message <- await (text results) ;;
      throw (newError message)
    else await (json results).

Definition s3Upload (file : File) : A JsVal :=
  ok <- authUser ;;
  if negb ok then
    emit (Log "User not authenticated.") ;;
    throw (newError "User is not logged in")
  else
    c <- theCredentials ;;
    t <- Date_now ;;
    let filename :=
      template (identityId c) ++ "-" ++ string_of_Z t ++ "-" ++ name file in
    emit (Log ("filename: " ++ filename)) ;;
    let p := {| Key := filename; Body := file; ContentType := type file;
                ACL := "public-read" |} in
    emit (S3Upload (s3_BUCKET config) p) ;;
    await (s3_upload env (s3_BUCKET config) p).

(** [n] calls of [authUser], one after the other. *)
Fixpoint authUser_times (n : nat) : A (list bool) :=
  match n with
  | O => ret []
  | S n' =>
      b <- authUser ;;
      bs <- authUser_times n' ;;
      ret (b :: bs)
  end.
End WithEnv.

(** Calls to the identity provider or to the credential exchanger. *)
Definition isProviderCall (e : Event) : bool :=
  match e with
  | GetCurrentUser _ _ | GetSession _ | UserSignOut _
  | ConfigUpdate _ | GetPromise _ | ClearCachedId => true
  | _ => false
  end.

(** Calls to the request signer or to the HTTP transport. *)
Definition isSignOrFetch (e : Event) : bool :=
  match e with
  | SignRequest _ _ | Fetch _ _ _ => true
  | _ => false
  end.

(** The object keys handed to the storage service, in order. *)
Fixpoint uploadKeys (evs : list Event) : list string :=
  match evs with
  | [] => []
  | S3Upload _ p :: rest => Key p :: uploadKeys rest
  | _ :: rest => uploadKeys rest
  end.

(** What of the state the library owns or can observe, the clock aside. *)
Definition sameSession (s s' : State) : Prop :=
  credentials s' = credentials s /\
  config_region s' = config_region s /\
  currentUser s' = currentUser s.

(** *** A concrete world, for examples *)

Definition sampleConfig : Config :=
  {| cognito_USER_POOL_ID := "us-east-1_Ab12";
     cognito_APP_CLIENT_ID := "client-1";
     cognito_REGION := "us-east-1";
     cognito_IDENTITY_POOL_ID := "us-east-1:pool";
     apiGateway_REGION := "us-east-1";
     apiGateway_URL := "https://api.example.com";
     s3_BUCKET := "notes-uploads" |}.

Definition okResponse : Response :=
  {| status := 200; text := Resolved "[]"; json := Resolved (VArr []) |}.

Definition errorResponse : Response :=
  {| status := 500;
     text := Resolved "Internal server error";
     json := Rejected (VError "SyntaxError" "Unexpected token I") |}.

(** The clock starts at 1000000 ms and advances by one per read; the
    session token is "abc"; the exchange yields credentials that expire an
    hour after the start. *)
Definition sampleEnv : Env :=
  {| now := fun n => 1000000 + Z.of_nat n;
     getSession := fun _ => (VNull, Some "abc");
     getPromise := fun _ =>
       Resolved {| data_accessKeyId := "AKIA1";
                   data_secretAccessKey := "secret";
                   data_sessionToken := "token";
                   data_expiration := 4600000;
                   data_identityId := "us-east-1:1f2e" |};
     getPromise_identityId := fun _ => None;
     signRequest := fun client request =>
       {| signed_headers := sign_headers request;
          signed_url := endpoint client |};
     JSON_stringify := fun _ => "{}";
     fetch := fun _ _ => Resolved okResponse;
     s3_upload := fun _ p => Resolved (VObj [("Key", VStr (Key p))]) |}.

Definition withSession (answer : JsVal * option string) (e : Env) : Env :=
  {| now := now e; getSession := fun _ => answer;
     getPromise := getPromise e;
     getPromise_identityId := getPromise_identityId e;
     signRequest := signRequest e;
     JSON_stringify := JSON_stringify e; fetch := fetch e;
     s3_upload := s3_upload e |}.

Definition withFetch (answer : Outcome Response) (e : Env) : Env :=
  {| now := now e; getSession := getSession e;
     getPromise := getPromise e;
     getPromise_identityId := getPromise_identityId e;
     signRequest := signRequest e;
     JSON_stringify := JSON_stringify e; fetch := fun _ _ => answer;
     s3_upload := s3_upload e |}.

Definition sessionExpired : JsVal :=
  VError "NotAuthorizedException" "Refresh Token has expired".

(** Credentials expiring at [E], otherwise resolved. *)
Definition credentialsUntil (E : Z) : Credentials :=
  {| params := {| IdentityPoolId := Some "us-east-1:pool";
                  Logins := [("cognito-idp.us-east-1.amazonaws.com/us-east-1_Ab12",
                              "abc")] |};
     accessKeyId := Some "AKIA1"; secretAccessKey := Some "secret";
     sessionToken := Some "token"; expireTime := Some E;
     identityId := Some "us-east-1:1f2e" |}.

Definition alice : CognitoUser := {| username := "alice" |}.

(** Nobody signed in, nothing cached. *)
Definition signedOut : State :=
  {| credentials := None; config_region := None; currentUser := None;
     clockReads := O |}.

(** Alice signed in, credentials cached and expiring at [E]. *)
Definition cachedUntil (E : Z) : State :=
  {| credentials := Some (credentialsUntil E);
     config_region := Some "us-east-1"; currentUser := Some alice;
     clockReads := O |}.

(** Alice signed in, nothing cached yet. *)
Definition signedIn : State :=
  {| credentials := None; config_region := None; currentUser := Some alice;
     clockReads := O |}.

Definition listNotes : ApigArgs :=
  {| path := VStr "/notes"; method := None; headers := None;
     queryParams := None; body := VUndefined |}.

(** The request [invokeApig] sends for [listNotes] in the sample world. *)
Definition listNotesInit : FetchInit :=
  {| fetch_method := "GET"; fetch_headers := VObj [];
     fetch_body := VUndefined |}.

Definition photo : File := {| name := "photo.png"; type := "image/png" |}.

(** The argument [getAwsCredentials] builds for
    [new AWS.CognitoIdentityCredentials]: the identity pool of the
    configuration and the single login [{[authenticator]: userToken}]. *)
Definition exchangeParams (config : Config) (userToken : string)
    : CredentialParams :=
  {| IdentityPoolId := Some (cognito_IDENTITY_POOL_ID config);
     Logins := [(authenticator config, userToken)] |}.

(** The objects handed to the storage service, with their bucket. *)
Fixpoint uploads (evs : list Event) : list (string * UploadParams) :=
  match evs with
  | [] => []
  | S3Upload bucket p :: rest => (bucket, p) :: uploads rest
  | _ :: rest => uploads rest
  end.

(** A world whose exchange settles as [answer] and, when it fails, has
    left the identity id [left] on the credentials object. *)
Definition withPromise (answer : Outcome CredentialData) (left : option string)
    (e : Env) : Env :=
  {| now := now e; getSession := getSession e;
     getPromise := fun _ => answer;
     getPromise_identityId := fun _ => left;
     signRequest := signRequest e;
     JSON_stringify := JSON_stringify e; fetch := fetch e;
     s3_upload := s3_upload e |}.

(** The exchange got the identity id, then lost the network. *)
Definition exchangeFailed : JsVal :=
  VError "NetworkingError" "Network Failure".

(** A world that serialises with [stringify]. *)
Definition withStringify (stringify : JsVal -> string) (e : Env) : Env :=
  {| now := now e; getSession := getSession e;
     getPromise := getPromise e;
     getPromise_identityId := getPromise_identityId e;
     signRequest := signRequest e;
     JSON_stringify := stringify; fetch := fetch e;
     s3_upload := s3_upload e |}.

(** The double quote, and the JSON text of [{content: "hello"}]. *)
Definition quote : string := String (Ascii.ascii_of_nat 34) "".

Definition helloJson : string :=
  "{" ++ quote ++ "content" ++ quote ++ ":" ++ quote ++ "hello" ++ quote ++ "}".

Definition networkDown : JsVal := VError "TypeError" "Failed to fetch".

(** What [sampleEnv]'s exchange resolves with. *)
Definition sampleData : CredentialData :=
  {| data_accessKeyId := "AKIA1"; data_secretAccessKey := "secret";
     data_sessionToken := "token"; data_expiration := 4600000;
     data_identityId := "us-east-1:1f2e" |}.

(** The same session as [cachedUntil], after [n] reads of the clock. *)
Definition cachedUntilAt (E : Z) (n : nat) : State :=
  {| credentials := Some (credentialsUntil E);
     config_region := Some "us-east-1"; currentUser := Some alice;
     clockReads := n |}.

Definition createNote : ApigArgs :=
  {| path := VStr "/notes"; method := Some "POST"; headers := None;
     queryParams := None;
     body := VObj [("content", VStr "hello")] |}.

(** A request whose headers and query parameters are passed, as
    [undefined]. *)
Definition listNotesUndefined : ApigArgs :=
  {| path := VStr "/notes"; method := None; headers := Some VUndefined;
     queryParams := Some VUndefined; body := VUndefined |}.

End AwsLib.

(** ** Properties of the handlers *)

Import Handlers.

(** Case analysis on the next property read or promise a run waits on. *)
Ltac step_run :=
  match goal with
  | |- context [getProp ?v ?k] =>
      let E := fresh "E" in destruct (getProp v k) eqn:E
  | |- context [match ?o with Resolved _ => _ | Rejected _ => _ end] =>
      let E := fresh "E" in destruct o eqn:E
  end.

Ltac run_handler :=
  unfold list_main, delete_main, cognitoIdentityId, call, callback,
    console_log, prop, tryCatch, bind, emit, await, ret, throw;
  cbn;
  repeat (step_run; cbn).

(** A value with one unreadable property has none readable. *)
Lemma getProp_nullish (v : JsVal) (k : string) :
  getProp v k = None -> forall k', getProp v k' = None.
Proof.
  destruct v; cbn; intros Hk k'; try discriminate; reflexivity.
Qed.

Section HandlerProperties.
Variable db : string -> JsVal -> Outcome JsVal.

Lemma list_main_callbacks (event context : JsVal) :
  let evs := calls (list_main db event context tt) in
  if reachedDb evs
  then exists r, callbacks evs = [(VNull, r)]
  else callbacks evs = [].
Proof.
  run_handler; eauto.
Qed.

Lemma delete_main_callbacks (event context : JsVal) :
  let evs := calls (delete_main db event context tt) in
  if reachedDb evs
  then exists r, callbacks evs = [(VNull, r)]
  else callbacks evs = [].
Proof.
  run_handler; eauto.
Qed.

Lemma list_main_query (event context : JsVal) action params :
  In (DbCall action params) (calls (list_main db event context tt)) ->
  responses (calls (list_main db event context tt)) =
    [match db action params with
     | Resolved result =>
         match getProp result "Items" with
         | Some items => success items
         | None => failure (status false)
         end
     | Rejected _ => failure (status false)
     end].
Proof.
  run_handler; cbn; intros HIn.
  all: try contradiction.
  all: repeat (destruct HIn as [HIn | HIn]; try discriminate; try contradiction).
  all: inversion HIn; subst; try congruence.
  all: match goal with
       | H1 : ?o = Resolved _, H2 : ?o = Resolved _ |- _ =>
           rewrite H1 in H2; inversion H2; subst
       end.
  all: match goal with
       | Hn : getProp ?v _ = None, Hs : getProp ?v _ = Some _ |- _ =>
           rewrite (getProp_nullish _ _ Hn) in Hs; discriminate
       end.
Qed.

Lemma delete_main_delete (event context : JsVal) action params :
  In (DbCall action params) (calls (delete_main db event context tt)) ->
  responses (calls (delete_main db event context tt)) =
    [match db action params with
     | Resolved _ => success (status true)
     | Rejected _ => failure (status false)
     end].
Proof.
  run_handler; cbn; intros HIn.
  all: try contradiction.
  all: repeat (destruct HIn as [HIn | HIn]; try discriminate; try contradiction).
  all: inversion HIn; subst; congruence.
Qed.
End HandlerProperties.

(** C9, as the specification states it, fails on the delete handler: when
    the delete succeeds with DynamoDB's empty result, the response is
    [success({status: true})], which does not carry the result's items;
    so the two envelopes of the sentence do not describe both handlers. *)
Lemma delete_success_envelope_is_not_items :
  responses (calls (delete_main emptyResult sampleEvent VUndefined tt))
    = [success (status true)] /\
  (two_fixed_envelopes delete_main -> False) /\
  (two_fixed_envelopes list_main /\ two_fixed_envelopes delete_main -> False).
Proof.
  assert (Hdelete : two_fixed_envelopes delete_main -> False).
  { intros Hdelete.
    specialize (Hdelete emptyResult sampleEvent VUndefined "delete"
                  (delete_params (VStr "us-east-1:1f2e") (VStr "note-7"))).
    cbn in Hdelete.
    specialize (Hdelete (or_introl eq_refl) VUndefined eq_refl).
    discriminate Hdelete. }
  split; [reflexivity | split; [exact Hdelete |]].
  intros [_ H]. exact (Hdelete H).
Qed.

(** C9, amended: once its database call is made, the list handler
    responds with [success(result.Items)] when the query resolves with a
    result other than [undefined] and [null], and with
    [failure({status: false})] when the query rejects or resolves with
    [undefined] or [null]; the delete handler responds with
    [success({status: true})] when the delete resolves and with
    [failure({status: false})] when it rejects; the failure response is
    the same for every error. *)
Theorem crud_handlers_envelopes :
  two_fixed_envelopes list_main /\
  (forall db event context action params result,
      let evs := calls (list_main db event context tt) in
      In (DbCall action params) evs ->
      db action params = Resolved result ->
      (result <> VUndefined -> result <> VNull ->
       exists items, getProp result "Items" = Some items /\
                     responses evs = [success items]) /\
      (result = VUndefined \/ result = VNull ->
       responses evs = [failure (status false)])) /\
  (forall db event context action params,
      let evs := calls (delete_main db event context tt) in
      In (DbCall action params) evs ->
      match db action params with
      | Resolved _ => responses evs = [success (status true)]
      | Rejected _ => responses evs = [failure (status false)]
      end).
Proof.
  split; [| split].
  - intros db event context action params evs HIn.
    subst evs.
    rewrite (list_main_query db event context action params HIn).
    destruct (db action params) as [result | err]; [| reflexivity].
    intros items Hitems. rewrite Hitems. reflexivity.
  - intros db event context action params result evs HIn Hdb.
    subst evs.
    rewrite (list_main_query db event context action params HIn), Hdb.
    split.
    + intros Hundefined Hnull.
      destruct (getProp result "Items") as [items |] eqn:Hitems.
      * exists items. split; reflexivity.
      * destruct result; cbn in Hitems; try discriminate;
          [contradiction Hundefined | contradiction Hnull]; reflexivity.
    + intros [-> | ->]; reflexivity.
  - intros db event context action params evs HIn.
    subst evs.
    rewrite (delete_main_delete db event context action params HIn).
    destruct (db action params); reflexivity.
Qed.

Lemma crud_handlers_envelopes_witness :
  responses (calls (list_main oneNote sampleEvent VUndefined tt))
    = [success (VArr [VStr "n"])] /\
  responses (calls (list_main throttled sampleEvent VUndefined tt))
    = [failure (status false)] /\
  responses (calls (list_main nullResult sampleEvent VUndefined tt))
    = [failure (status false)] /\
  responses (calls (delete_main emptyResult sampleEvent VUndefined tt))
    = [success (status true)] /\
  responses (calls (delete_main throttled sampleEvent VUndefined tt))
    = [failure (status false)].
Proof.
  destruct crud_handlers_envelopes as [Hlist [Hnullish Hdelete]].
  split; [| split; [| split; [| split]]].
  - apply (Hlist oneNote sampleEvent VUndefined "query"
                 (list_params (VStr "us-east-1:1f2e"))).
    + cbn. left. reflexivity.
    + reflexivity.
  - apply (Hlist throttled sampleEvent VUndefined "query"
                 (list_params (VStr "us-east-1:1f2e"))).
    cbn. left. reflexivity.
  - apply (Hnullish nullResult sampleEvent VUndefined "query"
                    (list_params (VStr "us-east-1:1f2e")) VNull).
    + cbn. left. reflexivity.
    + reflexivity.
    + right. reflexivity.
  - apply (Hdelete emptyResult sampleEvent VUndefined "delete"
                   (delete_params (VStr "us-east-1:1f2e") (VStr "note-7"))).
    cbn. left. reflexivity.
  - apply (Hdelete throttled sampleEvent VUndefined "delete"
                   (delete_params (VStr "us-east-1:1f2e") (VStr "note-7"))).
    cbn. left. reflexivity.
Defined.

(** C10: in every run of the list handler and of the delete handler, once
    the handler has made its database call (the first statement of its
    [try]) it invokes the callback exactly once, with [null] in the error
    slot, whether the call resolves or rejects; before that point it
    invokes no callback at all. So no callback invocation ever carries a
    caught exception as its first argument. *)
Theorem handlers_callback_error_is_null
    (db : string -> JsVal -> Outcome JsVal) (event context : JsVal) :
  (let evs := calls (list_main db event context tt) in
   if reachedDb evs then map fst (callbacks evs) = [VNull]
   else callbacks evs = []) /\
  (let evs := calls (delete_main db event context tt) in
   if reachedDb evs then map fst (callbacks evs) = [VNull]
   else callbacks evs = []).
Proof.
  split; cbv zeta.
  - pose proof (list_main_callbacks db event context) as Hcb.
    cbv zeta in Hcb.
    destruct (reachedDb _); [| exact Hcb].
    destruct Hcb as [r Hr]. rewrite Hr. reflexivity.
  - pose proof (delete_main_callbacks db event context) as Hcb.
    cbv zeta in Hcb.
    destruct (reachedDb _); [| exact Hcb].
    destruct Hcb as [r Hr]. rewrite Hr. reflexivity.
Qed.

Lemma handlers_callback_error_is_null_witness :
  map fst (callbacks (calls (list_main throttled sampleEvent VUndefined tt)))
    = [VNull] /\
  map fst (callbacks (calls (delete_main throttled sampleEvent VUndefined tt)))
    = [VNull] /\
  callbacks (calls (delete_main throttled VUndefined VUndefined tt)) = [].
Proof.
  split; [| split].
  - exact (proj1 (handlers_callback_error_is_null throttled sampleEvent VUndefined)).
  - exact (proj2 (handlers_callback_error_is_null throttled sampleEvent VUndefined)).
  - exact (proj2 (handlers_callback_error_is_null throttled VUndefined VUndefined)).
Defined.

(** ** Properties of the client helper library *)

Import AwsLib.

Ltac unfold_lib :=
  unfold s3Upload, invokeApig, signOutUser, authUser, getAwsCredentials,
    getUserToken, getCurrentUser, hasValidCredentials, theCredentials,
    Date_now, tryCatch, bind, emit, await, gets, modify, ret, throw.

Ltac simpl_lib := cbn -[authenticator String.append string_of_Z Z.sub Z.ltb].

(** Case analysis on what the next step of a run depends on: the cached
    credentials, the stored user, or an answer of the outside world. *)
Ltac step_lib :=
  match goal with
  | |- context [match credentials ?s with _ => _ end] =>
      let E := fresh "Ecred" in destruct (credentials s) eqn:E
  | |- context [match currentUser ?s with _ => _ end] =>
      let E := fresh "Euser" in destruct (currentUser s) eqn:E
  | |- context [getSession ?e ?u] =>
      let E := fresh "Esession" in destruct (getSession e u) eqn:E
  | |- context [getPromise ?e ?p] =>
      let E := fresh "Epromise" in destruct (getPromise e p) eqn:E
  | |- context [fetch ?e ?u ?i] =>
      let E := fresh "Efetch" in destruct (fetch e u i) eqn:E
  | |- context [if ?b then _ else _] =>
      let E := fresh "Eb" in destruct b eqn:E
  | |- context [match ?o with Some _ => _ | None => _ end] =>
      let E := fresh "Eo" in destruct o eqn:E
  | |- context [match ?o with Resolved _ => _ | Rejected _ => _ end] =>
      let E := fresh "Eo" in destruct o eqn:E
  end.

Ltac run_lib := unfold_lib; simpl_lib; repeat (step_lib; simpl_lib).

(** How [bind] runs once the run of its first part is known. *)
Lemma surjective_run {St Ev T} (r : Run St Ev T) :
  r = mkRun (outcome r) (final r) (calls r).
Proof.
  destruct r; reflexivity.
Qed.

Lemma bind_resolved {St Ev T U} (m : M St Ev T) (k : T -> M St Ev U)
    (s s1 : St) (a : T) (evs : list Ev) :
  m s = mkRun (Resolved a) s1 evs ->
  bind m k s =
    mkRun (outcome (k a s1)) (final (k a s1)) (evs ++ calls (k a s1)).
Proof.
  intros Hm. unfold bind. rewrite Hm. destruct (k a s1); reflexivity.
Qed.

Lemma bind_rejected {St Ev T U} (m : M St Ev T) (k : T -> M St Ev U)
    (s s1 : St) (err : JsVal) (evs : list Ev) :
  m s = mkRun (Rejected err) s1 evs ->
  bind m k s = mkRun (Rejected err) s1 evs.
Proof.
  intros Hm. unfold bind. rewrite Hm. reflexivity.
Qed.

Lemma uploadKeys_app (evs evs' : list Event) :
  uploadKeys (evs ++ evs') = (uploadKeys evs ++ uploadKeys evs')%list.
Proof.
  induction evs as [| e evs IH]; [reflexivity |].
  destruct e; cbn; rewrite ?IH; reflexivity.
Qed.

Section AuthProperties.
Variable config : Config.
Variable env : Env.

Lemma hasValidCredentials_run (s : State) :
  hasValidCredentials env s =
    match credentials s with
    | None => mkRun (Resolved false) s []
    | Some c =>
        mkRun (Resolved (now env (clockReads s) <? expireTime_toNumber c - 60000))
              (tick s) []
    end.
Proof.
  unfold_lib. destruct (credentials s); reflexivity.
Qed.

(** [authUser] talks to the identity provider and the exchanger only. *)
Lemma authUser_calls (s : State) (e : Event) :
  In e (calls (authUser config env s)) -> isProviderCall e = true.
Proof.
  run_lib; intros HIn.
  all: repeat (destruct HIn as [HIn | HIn]; [subst e; reflexivity |]).
  all: contradiction.
Qed.

Lemma authUser_no_sign_or_fetch (s : State) :
  filter isSignOrFetch (calls (authUser config env s)) = [].
Proof.
  run_lib; reflexivity.
Qed.

Lemma authUser_no_upload (s : State) :
  uploadKeys (calls (authUser config env s)) = [].
Proof.
  run_lib; reflexivity.
Qed.

(** After [authUser] has answered [true] there is a credentials object. *)
Lemma authUser_true_credentials (s : State) :
  outcome (authUser config env s) = Resolved true ->
  exists c, credentials (final (authUser config env s)) = Some c.
Proof.
  run_lib; intros H; try discriminate; eauto.
Qed.

(** C1: the credential check in front of [authUser] answers [true]
    exactly when a credentials object is cached and the current time is
    strictly below its expiry minus 60000 ms, and [false] otherwise (it
    never throws); for a cached credential set with expiry [E] that is
    [now < E - 60000], and at exactly [E - 60000] the answer is
    [false]. *)
Theorem hasValidCredentials_iff (s : State) :
  (outcome (hasValidCredentials env s) = Resolved true <->
   exists c, credentials s = Some c /\
             now env (clockReads s) < expireTime_toNumber c - 60000) /\
  (outcome (hasValidCredentials env s) = Resolved true \/
   outcome (hasValidCredentials env s) = Resolved false) /\
  (forall c E,
      credentials s = Some c -> expireTime c = Some E ->
      (outcome (hasValidCredentials env s) = Resolved true <->
       now env (clockReads s) < E - 60000) /\
      (now env (clockReads s) = E - 60000 ->
       outcome (hasValidCredentials env s) = Resolved false)).
Proof.
  rewrite hasValidCredentials_run.
  destruct (credentials s) as [c |] eqn:Ecred; cbn [outcome].
  - destruct (Z.ltb_spec (now env (clockReads s))
                         (expireTime_toNumber c - 60000)) as [Hlt | Hge].
    + split; [| split].
      * split; [intros _; exists c; auto | reflexivity].
      * left; reflexivity.
      * intros c' E Hc' HE. injection Hc' as <-.
        unfold expireTime_toNumber in Hlt. rewrite HE in Hlt.
        split; [split; [intros _; exact Hlt | reflexivity] | lia].
    + split; [| split].
      * split; [discriminate |].
        intros [c' [Hc' Hlt]]. injection Hc' as <-. lia.
      * right; reflexivity.
      * intros c' E Hc' HE. injection Hc' as <-.
        unfold expireTime_toNumber in Hge. rewrite HE in Hge.
        split; [split; [discriminate | lia] | reflexivity].
  - split; [| split].
    + split; [discriminate | intros [c [Hc _]]; discriminate].
    + right; reflexivity.
    + intros c E Hc; discriminate.
Qed.

(** C2: when the cached credentials are not valid and the identity
    provider has no current user, [authUser] resolves with [false]; it
    neither throws nor rejects, and it leaves the cached credentials as
    they were. *)
Theorem authUser_no_current_user (s : State) :
  outcome (hasValidCredentials env s) = Resolved false ->
  currentUser s = None ->
  outcome (authUser config env s) = Resolved false /\
  credentials (final (authUser config env s)) = credentials s.
Proof.
  intros Hvalid Huser. revert Hvalid.
  run_lib; intros Hvalid; try discriminate; try congruence.
  all: split; [reflexivity | congruence].
Qed.

(** One call on the fast path. *)
Lemma authUser_fast_path (s : State) :
  outcome (hasValidCredentials env s) = Resolved true ->
  authUser config env s = mkRun (Resolved true) (tick s) [].
Proof.
  run_lib; intros Hvalid; try discriminate; reflexivity.
Qed.

(** C3: with valid credentials cached, [authUser] returns [true] at
    once, calls neither the identity provider nor the exchanger (it makes
    no outside call at all) and leaves the cached credential set, the
    region and the stored user as they were; and so do [n] calls in a
    row, as long as the credentials are still valid at each of them. *)
Theorem authUser_idempotent_when_valid (n : nat) (s : State) (c : Credentials) :
  credentials s = Some c ->
  (forall k, (k < n)%nat ->
             now env (clockReads s + k) < expireTime_toNumber c - 60000) ->
  (n <> O ->
   outcome (authUser config env s) = Resolved true /\
   calls (authUser config env s) = [] /\
   sameSession s (final (authUser config env s))) /\
  outcome (authUser_times config env n s) = Resolved (repeat true n) /\
  calls (authUser_times config env n s) = [] /\
  sameSession s (final (authUser_times config env n s)).
Proof.
  revert s.
  induction n as [| n IH]; intros s Hcred Hvalid.
  - split; [intros Hn; contradiction Hn; reflexivity |].
    cbn. repeat split.
  - assert (Hfast : outcome (hasValidCredentials env s) = Resolved true).
    { rewrite hasValidCredentials_run, Hcred. cbn [outcome].
      f_equal. apply Z.ltb_lt.
      specialize (Hvalid O (Nat.lt_0_succ n)).
      rewrite Nat.add_0_r in Hvalid. exact Hvalid. }
    pose proof (authUser_fast_path s Hfast) as Hrun.
    assert (Hnext : forall k, (k < n)%nat ->
              now env (clockReads (tick s) + k)
                < expireTime_toNumber c - 60000).
    { intros k Hk. cbn [tick clockReads].
      replace (S (clockReads s) + k)%nat with (clockReads s + S k)%nat by lia.
      apply Hvalid. lia. }
    destruct (IH (tick s) Hcred Hnext) as [_ [Hout [Hcalls Hsame]]].
    split.
    + intros _. rewrite Hrun. cbn. repeat split.
    + cbn [authUser_times].
      rewrite (bind_resolved _ _ _ _ _ _ Hrun).
      assert (Hrest : authUser_times config env n (tick s) =
                mkRun (Resolved (repeat true n))
                      (final (authUser_times config env n (tick s))) []).
      { rewrite (surjective_run (authUser_times config env n (tick s))) at 1.
        rewrite Hout, Hcalls. reflexivity. }
      rewrite (bind_resolved _ _ _ _ _ _ Hrest). cbn.
      split; [reflexivity | split; [reflexivity | exact Hsame]].
Qed.

(** C4: when the cached credentials are not valid, a user is signed in
    and the identity provider answers [getSession] with the error [err],
    [authUser] rejects with [err] itself. *)
Theorem authUser_propagates_session_error
    (s : State) (user : CognitoUser) (err : JsVal) (session : option string) :
  outcome (hasValidCredentials env s) = Resolved false ->
  currentUser s = Some user ->
  getSession env user = (err, session) ->
  truthy err = true ->
  outcome (authUser config env s) = Rejected err.
Proof.
  intros Hvalid Huser Hsession Herr. revert Hvalid.
  unfold_lib. simpl_lib.
  destruct (credentials s) as [c |]; simpl_lib.
  - destruct (now env (clockReads s) <? expireTime_toNumber c - 60000);
      simpl_lib; [discriminate |].
    intros _. rewrite Huser. simpl_lib.
    rewrite Hsession, Herr. reflexivity.
  - intros _. rewrite Huser. simpl_lib.
    rewrite Hsession, Herr. reflexivity.
Qed.

(** C5: [signOutUser] always completes without error and leaves no
    current user; a credential set that was held is cleared
    ([clearCachedId]) and replaced by the empty credential set, which is
    an object and not an absent value; when nobody is signed in and no
    credentials are cached it changes nothing and only asks the provider
    for the current user; and signing out a second time succeeds and
    leaves the state of the first sign-out. *)
Theorem signOutUser_total_idempotent (s : State) :
  let r := signOutUser config s in
  outcome r = Resolved tt /\
  currentUser (final r) = None /\
  (forall c, credentials s = Some c ->
             credentials (final r) = Some emptyCredentials /\
             In ClearCachedId (calls r)) /\
  Some emptyCredentials <> None /\
  (currentUser s = None -> credentials s = None ->
   final r = s /\
   calls r = [GetCurrentUser (cognito_USER_POOL_ID config)
                             (cognito_APP_CLIENT_ID config)]) /\
  outcome (signOutUser config (final r)) = Resolved tt /\
  final (signOutUser config (final r)) = final r.
Proof.
  cbv zeta. unfold_lib. simpl_lib.
  destruct (currentUser s) as [u |] eqn:Euser;
    destruct (credentials s) as [c |] eqn:Ecred; simpl_lib;
    rewrite ?Ecred, ?Euser; simpl_lib.
  all: repeat match goal with
              | |- _ /\ _ => split
              end.
  all: simpl_lib; rewrite ?Ecred, ?Euser; simpl_lib.
  all: try reflexivity; try discriminate.
  all: try (intros c' Hc'; split; [reflexivity | cbn; tauto]).
  all: try (intros; discriminate).
  all: try (intros; split; reflexivity).
  all: try (intros; exact Euser).
Qed.

(** C6: when [authUser] answers [false], [invokeApig] rejects with the
    error "User is not logged in", and its run contains no call to the
    request signer and no call to [fetch]. *)
Theorem invokeApig_unauthenticated (args : ApigArgs) (s : State) :
  outcome (authUser config env s) = Resolved false ->
  outcome (invokeApig config env args s)
    = Rejected (newError "User is not logged in") /\
  filter isSignOrFetch (calls (invokeApig config env args s)) = [].
Proof.
  intros Hauth.
  pose proof (authUser_no_sign_or_fetch s) as Hquiet.
  unfold invokeApig.
  destruct (authUser config env s) as [o s1 evs] eqn:Erun.
  cbn [outcome calls] in Hauth, Hquiet. subst o.
  rewrite (bind_resolved _ _ _ _ _ _ Erun). cbn.
  rewrite app_nil_r. split; [reflexivity | exact Hquiet].
Qed.

(** C7: for every response [results] that [invokeApig] receives from
    [fetch]: when its status is not 200 the call rejects with an Error
    whose message is the response's body text; when its status is 200
    the call settles as [results.json()] does, with the body parsed as
    JSON. *)
Theorem invokeApig_response
    (args : ApigArgs) (s : State) (url : string) (init : FetchInit)
    (results : Response) :
  In (Fetch url init (Resolved results))
     (calls (invokeApig config env args s)) ->
  (status results <> 200 ->
   forall message, text results = Resolved message ->
     outcome (invokeApig config env args s) = Rejected (newError message)) /\
  (status results = 200 ->
   outcome (invokeApig config env args s) = json results).
Proof.
  intros HIn.
  assert (Hauth : forall e, In e (calls (authUser config env s)) ->
                            isProviderCall e = true)
    by (intros e; apply authUser_calls).
  revert HIn. unfold invokeApig.
  destruct (authUser config env s) as [[[|] | err] s1 evs] eqn:Erun;
    cbn [calls] in Hauth.
  - rewrite (bind_resolved _ _ _ _ _ _ Erun).
    unfold_lib. simpl_lib.
    destruct (credentials s1) as [c |]; simpl_lib.
    + destruct (fetch env _ _) as [r |err] eqn:Efetch; simpl_lib.
      * destruct (Z.eqb_spec (status r) 200) as [H200 | H200]; simpl_lib.
        -- intros HIn. apply in_app_or in HIn.
           destruct HIn as [HIn | [HIn | [HIn | []]]];
             [apply Hauth in HIn; discriminate | discriminate |].
           injection HIn as _ _ ->.
           split; [intros Hne; contradiction | intros _; reflexivity].
        -- destruct (text r) as [message |err] eqn:Etext; simpl_lib.
           all: intros HIn; apply in_app_or in HIn.
           all: destruct HIn as [HIn | [HIn | [HIn | []]]];
             [apply Hauth in HIn; discriminate | discriminate |].
           all: injection HIn as _ _ ->.
           all: split; [intros _ | intros Heq; contradiction].
           all: intros message' Htext; rewrite Etext in Htext.
           ++ injection Htext as ->. reflexivity.
           ++ discriminate.
      * intros HIn. apply in_app_or in HIn.
        destruct HIn as [HIn | [HIn | [HIn | []]]];
          [apply Hauth in HIn; discriminate | discriminate | discriminate].
    + rewrite app_nil_r. intros HIn. apply Hauth in HIn. discriminate.
  - rewrite (bind_resolved _ _ _ _ _ _ Erun). simpl_lib.
    rewrite app_nil_r. intros HIn. apply Hauth in HIn. discriminate.
  - rewrite (bind_rejected _ _ _ _ _ _ Erun). simpl_lib.
    intros HIn. apply Hauth in HIn. discriminate.
Qed.

(** C8: for every upload that passes authentication, exactly one object
    is handed to the storage service, and its key is the identity id of
    the cached credentials, a hyphen, the time read at that moment in
    decimal, a hyphen, and the file's name. *)
Theorem s3Upload_key (file : File) (s : State) :
  outcome (authUser config env s) = Resolved true ->
  exists c,
    credentials (final (authUser config env s)) = Some c /\
    forall id, identityId c = Some id ->
      uploadKeys (calls (s3Upload config env file s)) =
        [id ++ "-"
            ++ string_of_Z (now env (clockReads (final (authUser config env s))))
            ++ "-" ++ name file].
Proof.
  intros Hauth.
  destruct (authUser_true_credentials s Hauth) as [c Hc].
  exists c. split; [exact Hc |].
  intros id Hid.
  pose proof (authUser_no_upload s) as Hquiet.
  unfold s3Upload.
  destruct (authUser config env s) as [o s1 evs] eqn:Erun.
  cbn [outcome calls final] in Hauth, Hquiet, Hc |- *. subst o.
  rewrite (bind_resolved _ _ _ _ _ _ Erun).
  unfold_lib. simpl_lib. rewrite Hc. simpl_lib.
  rewrite uploadKeys_app, Hquiet. cbn [uploadKeys app Key].
  rewrite Hid. reflexivity.
Qed.
End AuthProperties.

(** ** The theorems at work on the concrete world *)

(** At exactly [E - 60000] the cached credentials no longer count as
    valid; one millisecond earlier they do. *)
Lemma hasValidCredentials_iff_witness :
  outcome (hasValidCredentials sampleEnv (cachedUntil 1060000)) = Resolved false /\
  outcome (hasValidCredentials sampleEnv (cachedUntil 1060001)) = Resolved true.
Proof.
  split.
  - apply (proj2 (proj2 (hasValidCredentials_iff sampleEnv (cachedUntil 1060000)))
             (credentialsUntil 1060000) 1060000 eq_refl eq_refl).
    reflexivity.
  - apply (proj2 (proj2 (hasValidCredentials_iff sampleEnv (cachedUntil 1060001)))
             (credentialsUntil 1060001) 1060001 eq_refl eq_refl).
    reflexivity.
Defined.

Lemma authUser_no_current_user_witness :
  outcome (authUser sampleConfig sampleEnv signedOut) = Resolved false /\
  credentials (final (authUser sampleConfig sampleEnv signedOut))
    = credentials signedOut.
Proof.
  apply (authUser_no_current_user sampleConfig sampleEnv signedOut);
    reflexivity.
Defined.

Lemma authUser_idempotent_when_valid_witness :
  outcome (authUser_times sampleConfig sampleEnv 3 (cachedUntil 4600000))
    = Resolved [true; true; true] /\
  calls (authUser_times sampleConfig sampleEnv 3 (cachedUntil 4600000)) = [] /\
  sameSession (cachedUntil 4600000)
    (final (authUser_times sampleConfig sampleEnv 3 (cachedUntil 4600000))).
Proof.
  apply (authUser_idempotent_when_valid sampleConfig sampleEnv 3
           (cachedUntil 4600000) (credentialsUntil 4600000)).
  - reflexivity.
  - intros k Hk. cbn [now sampleEnv cachedUntil clockReads Nat.add].
    unfold expireTime_toNumber. cbn [expireTime credentialsUntil]. lia.
Defined.

Lemma authUser_propagates_session_error_witness :
  outcome (authUser sampleConfig (withSession (sessionExpired, None) sampleEnv)
             signedIn)
    = Rejected sessionExpired.
Proof.
  apply (authUser_propagates_session_error sampleConfig
           (withSession (sessionExpired, None) sampleEnv) signedIn alice
           sessionExpired None);
    reflexivity.
Defined.

Lemma signOutUser_total_idempotent_witness :
  credentials (final (signOutUser sampleConfig (cachedUntil 4600000)))
    = Some emptyCredentials /\
  final (signOutUser sampleConfig signedOut) = signedOut.
Proof.
  split.
  - apply (proj1 (proj2 (proj2
             (signOutUser_total_idempotent sampleConfig (cachedUntil 4600000))))
             (credentialsUntil 4600000) eq_refl).
  - apply (proj1 (proj2 (proj2 (proj2 (proj2
             (signOutUser_total_idempotent sampleConfig signedOut)))))
             eq_refl eq_refl).
Defined.

Lemma invokeApig_unauthenticated_witness :
  outcome (invokeApig sampleConfig sampleEnv listNotes signedOut)
    = Rejected (newError "User is not logged in") /\
  filter isSignOrFetch
    (calls (invokeApig sampleConfig sampleEnv listNotes signedOut)) = [].
Proof.
  apply (invokeApig_unauthenticated sampleConfig sampleEnv listNotes signedOut).
  reflexivity.
Defined.

Lemma invokeApig_response_witness :
  outcome (invokeApig sampleConfig (withFetch (Resolved errorResponse) sampleEnv)
             listNotes (cachedUntil 4600000))
    = Rejected (newError "Internal server error") /\
  outcome (invokeApig sampleConfig sampleEnv listNotes (cachedUntil 4600000))
    = Resolved (VArr []).
Proof.
  split.
  - apply (proj1 (invokeApig_response sampleConfig
                    (withFetch (Resolved errorResponse) sampleEnv) listNotes
                    (cachedUntil 4600000) "https://api.example.com"
                    listNotesInit errorResponse
                    (or_intror (or_introl eq_refl)))).
    + discriminate.
    + reflexivity.
  - apply (proj2 (invokeApig_response sampleConfig sampleEnv listNotes
                    (cachedUntil 4600000) "https://api.example.com"
                    listNotesInit okResponse
                    (or_intror (or_introl eq_refl)))).
    reflexivity.
Defined.

(** The key carries the time of the second read of the clock: the first
    read is the one of [authUser]. *)
Lemma s3Upload_key_witness :
  uploadKeys (calls (s3Upload sampleConfig sampleEnv photo (cachedUntil 4600000)))
    = ["us-east-1:1f2e-1000001-photo.png"] /\
  uploadKeys (calls (s3Upload sampleConfig sampleEnv photo signedIn))
    = ["us-east-1:1f2e-1000000-photo.png"].
Proof.
  split.
  - destruct (s3Upload_key sampleConfig sampleEnv photo (cachedUntil 4600000)
                eq_refl) as [c [Hc Hkey]].
    injection Hc as <-.
    exact (Hkey "us-east-1:1f2e" eq_refl).
  - destruct (s3Upload_key sampleConfig sampleEnv photo signedIn eq_refl)
      as [c [Hc Hkey]].
    injection Hc as <-.
    exact (Hkey "us-east-1:1f2e" eq_refl).
Defined.

(** ** Further properties of the handlers *)

Section MoreHandlerProperties.
Variable db : string -> JsVal -> Outcome JsVal.

(** X1: each handler makes exactly one database call, whatever comes of
    it, and the call is keyed by the identity id of the event's caller:
    the list handler queries with [:userId] bound to it, the delete
    handler deletes the key made of it and of [pathParameters.id]. *)
Theorem handlers_db_call_is_keyed_by_caller
    (event context requestContext identity userId : JsVal) :
  getProp event "requestContext" = Some requestContext ->
  getProp requestContext "identity" = Some identity ->
  getProp identity "cognitoIdentityId" = Some userId ->
  dbCalls (calls (list_main db event context tt))
    = [("query", list_params userId)] /\
  (forall pathParameters noteId,
      getProp event "pathParameters" = Some pathParameters ->
      getProp pathParameters "id" = Some noteId ->
      dbCalls (calls (delete_main db event context tt))
        = [("delete", delete_params userId noteId)]).
Proof.
  intros Hrc Hid Huid. split.
  - unfold list_main, cognitoIdentityId, call, callback, console_log, prop,
      tryCatch, bind, emit, await, ret, throw.
    rewrite Hrc. cbn. rewrite Hid. cbn. rewrite Huid. cbn.
    repeat (step_run; cbn); reflexivity.
  - intros pathParameters noteId Hpp Hnote.
    unfold delete_main, cognitoIdentityId, call, callback, console_log, prop,
      tryCatch, bind, emit, await, ret, throw.
    rewrite Hrc. cbn. rewrite Hid. cbn. rewrite Huid. cbn.
    rewrite Hpp. cbn. rewrite Hnote. cbn.
    repeat (step_run; cbn); reflexivity.
Qed.

(** X2: a failure of the database never escapes a handler: once the
    database call is made the handler's promise resolves; the promise
    rejects only when reading the event throws, and then with that
    TypeError, before any database call, log or callback. *)
Theorem handlers_settle (event context : JsVal) :
  (let r := list_main db event context tt in
   if reachedDb (calls r) then outcome r = Resolved tt
   else outcome r = Rejected typeError /\ calls r = []) /\
  (let r := delete_main db event context tt in
   if reachedDb (calls r) then outcome r = Resolved tt
   else outcome r = Rejected typeError /\ calls r = []).
Proof.
  split; run_handler; auto.
Qed.

(** X3: the delete handler on an event whose [pathParameters] is
    [undefined] or [null] rejects with a TypeError: it calls neither the
    database nor its callback. *)
Theorem delete_main_without_path_parameters
    (event context pathParameters : JsVal) :
  getProp event "pathParameters" = Some pathParameters ->
  getProp pathParameters "id" = None ->
  outcome (delete_main db event context tt) = Rejected typeError /\
  calls (delete_main db event context tt) = [].
Proof.
  intros Hpp Hid.
  unfold delete_main, cognitoIdentityId, call, callback, console_log, prop,
    tryCatch, bind, emit, await, ret, throw.
  destruct (getProp event "requestContext") as [rc |]; cbn; [| auto].
  destruct (getProp rc "identity") as [idn |]; cbn; [| auto].
  destruct (getProp idn "cognitoIdentityId") as [uid |]; cbn; [| auto].
  rewrite Hpp. cbn. rewrite Hid. cbn. auto.
Qed.

(** X4: when the query of the list handler resolves with [undefined] or
    [null], reading [result.Count] throws inside the [try]: the result is
    logged, then the callback is invoked once, with [null] and the
    failure response [{status: false}]. *)
Theorem list_main_nullish_result
    (event context : JsVal) (action : string) (params result : JsVal) :
  In (DbCall action params) (calls (list_main db event context tt)) ->
  db action params = Resolved result ->
  getProp result "Count" = None ->
  calls (list_main db event context tt)
    = [DbCall action params; ConsoleLog "list result: " result;
       Callback VNull (failure (Handlers.status false))].
Proof.
  unfold list_main, cognitoIdentityId, call, callback, console_log, prop,
    tryCatch, bind, emit, await, ret, throw.
  destruct (getProp event "requestContext") as [rc |]; cbn; [| tauto].
  destruct (getProp rc "identity") as [idn |]; cbn; [| tauto].
  destruct (getProp idn "cognitoIdentityId") as [uid |]; cbn; [| tauto].
  destruct (db "query" (list_params uid)) as [res | err] eqn:Edb; cbn.
  - destruct (getProp res "Count") as [cnt |] eqn:Ecnt; cbn.
    + destruct (getProp res "Items") as [items |] eqn:Eitems; cbn.
      * intros [HIn | [HIn | [HIn | [HIn | []]]]]; try discriminate.
        injection HIn as <- <-. intros Hdb Hcount.
        rewrite Edb in Hdb. injection Hdb as <-. congruence.
      * intros [HIn | [HIn | [HIn | [HIn | []]]]]; try discriminate.
        injection HIn as <- <-. intros Hdb Hcount.
        rewrite Edb in Hdb. injection Hdb as <-. congruence.
    + intros [HIn | [HIn | [HIn | []]]]; try discriminate.
      injection HIn as <- <-. intros Hdb Hcount.
      rewrite Edb in Hdb. injection Hdb as <-. reflexivity.
  - intros [HIn | [HIn | []]]; try discriminate.
    injection HIn as <- <-. intros Hdb. congruence.
Qed.
End MoreHandlerProperties.

Lemma handlers_db_call_is_keyed_by_caller_witness :
  dbCalls (calls (list_main throttled sampleEvent VUndefined tt))
    = [("query", list_params (VStr "us-east-1:1f2e"))] /\
  dbCalls (calls (delete_main emptyResult sampleEvent VUndefined tt))
    = [("delete", delete_params (VStr "us-east-1:1f2e") (VStr "note-7"))].
Proof.
  split.
  - apply (proj1 (handlers_db_call_is_keyed_by_caller throttled sampleEvent
                    VUndefined _ _ _ eq_refl eq_refl eq_refl)).
  - apply (proj2 (handlers_db_call_is_keyed_by_caller emptyResult sampleEvent
                    VUndefined _ _ _ eq_refl eq_refl eq_refl)
             _ _ eq_refl eq_refl).
Defined.

Lemma delete_main_without_path_parameters_witness :
  outcome (delete_main emptyResult eventWithoutPath VUndefined tt)
    = Rejected typeError /\
  calls (delete_main emptyResult eventWithoutPath VUndefined tt) = [].
Proof.
  apply (delete_main_without_path_parameters emptyResult eventWithoutPath
           VUndefined VUndefined); reflexivity.
Defined.

Lemma list_main_nullish_result_witness :
  calls (list_main nullResult sampleEvent VUndefined tt)
    = [DbCall "query" (list_params (VStr "us-east-1:1f2e"));
       ConsoleLog "list result: " VNull;
       Callback VNull (failure (Handlers.status false))].
Proof.
  apply (list_main_nullish_result nullResult sampleEvent VUndefined "query"
           (list_params (VStr "us-east-1:1f2e")) VNull).
  - cbn. left. reflexivity.
  - reflexivity.
  - reflexivity.
Defined.

(** ** Strings: the decimal digits of a number, and cancellation *)

Lemma Z_to_int_not_nil (z : Z) :
  Z.to_int z <> Decimal.Pos Decimal.Nil /\
  Z.to_int z <> Decimal.Neg Decimal.Nil.
Proof.
  destruct z as [| p | p]; cbn; split; try discriminate.
  - intros H. injection H as H. exact (DecimalPos.Unsigned.to_uint_nonnil p H).
  - intros H. injection H as H. exact (DecimalPos.Unsigned.to_uint_nonnil p H).
Qed.

(** Different numbers print differently. *)
Lemma string_of_Z_inj (z z' : Z) : string_of_Z z = string_of_Z z' -> z = z'.
Proof.
  unfold string_of_Z. intros H.
  apply DecimalZ.to_int_inj.
  destruct (Z_to_int_not_nil z) as [Hp Hn].
  destruct (Z_to_int_not_nil z') as [Hp' Hn'].
  pose proof (NilZero.isi _ Hp Hn) as E.
  pose proof (NilZero.isi _ Hp' Hn') as E'.
  rewrite H in E. rewrite E in E'. injection E' as E'. exact E'.
Qed.

Lemma append_cancel_l (a x y : string) : a ++ x = a ++ y -> x = y.
Proof.
  induction a as [| ch a IH]; cbn; [auto |].
  intros H. injection H as H. auto.
Qed.

Lemma length_append (x y : string) :
  String.length (x ++ y) = (String.length x + String.length y)%nat.
Proof.
  induction x as [| ch x IH]; cbn; [reflexivity | now rewrite IH].
Qed.

Lemma append_cancel_r (b x y : string) : x ++ b = y ++ b -> x = y.
Proof.
  revert y. induction x as [| ch x IH]; intros [| ch' y] H; cbn in H.
  - reflexivity.
  - exfalso. apply (f_equal String.length) in H. cbn in H.
    rewrite length_append in H. lia.
  - exfalso. apply (f_equal String.length) in H. cbn in H.
    rewrite length_append in H. lia.
  - injection H as -> H. f_equal. auto.
Qed.

(** ** Further properties of the client helper library *)

Section MoreAuthProperties.
Variable config : Config.
Variable env : Env.

(** The state in which [authUser] goes on after its first test. *)
Lemma hasValidCredentials_final (s : State) :
  credentials (final (hasValidCredentials env s)) = credentials s /\
  config_region (final (hasValidCredentials env s)) = config_region s /\
  currentUser (final (hasValidCredentials env s)) = currentUser s.
Proof.
  rewrite hasValidCredentials_run.
  destruct (credentials s) eqn:Ecred; cbn; auto.
Qed.

(** [authUser] past its first test, one case per answer of the world. *)
Lemma authUser_slow_path (s : State) :
  outcome (hasValidCredentials env s) = Resolved false ->
  let s0 := final (hasValidCredentials env s) in
  let asked := GetCurrentUser (cognito_USER_POOL_ID config)
                              (cognito_APP_CLIENT_ID config) in
  authUser config env s =
    match currentUser s with
    | None => mkRun (Resolved false) s0 [asked]
    | Some user =>
        let (err, session) := getSession env user in
        if truthy err then mkRun (Rejected err) s0 [asked; GetSession user]
        else
          match session with
          | None => mkRun (Rejected typeError) s0 [asked; GetSession user]
          | Some jwt =>
              let p := exchangeParams config jwt in
              let fresh := newCognitoIdentityCredentials p in
              let s1 := set_credentials (Some fresh)
                          (set_region (cognito_REGION config) s0) in
              let evs := [asked; GetSession user;
                          ConfigUpdate (cognito_REGION config);
                          GetPromise p] in
              match getPromise env p with
              | Resolved d =>
                  mkRun (Resolved true)
                        (set_credentials (Some (resolved fresh d)) s1) evs
              | Rejected e =>
                  mkRun (Rejected e)
                        (set_credentials
                           (Some (interrupted fresh
                                    (getPromise_identityId env p))) s1)
                        evs
              end
          end
    end.
Proof.
  intros Hvalid. cbv zeta.
  destruct (hasValidCredentials_final s) as [_ [_ Huser]].
  unfold authUser. unfold bind at 1.
  destruct (hasValidCredentials env s) as [o s0 evs0] eqn:Erun.
  assert (Hevs : evs0 = []).
  { rewrite hasValidCredentials_run in Erun.
    destruct (credentials s); injection Erun as _ _ <-; reflexivity. }
  cbn [outcome final] in Hvalid, Huser |- *. subst o evs0.
  unfold exchangeParams.
  unfold_lib. simpl_lib. rewrite Huser.
  destruct (currentUser s) as [user |]; simpl_lib; [| reflexivity].
  destruct (getSession env user) as [err session]; simpl_lib.
  destruct (truthy err); simpl_lib; [reflexivity |].
  destruct session as [jwt |]; simpl_lib; [| reflexivity].
  destruct (getPromise env _); reflexivity.
Qed.

Ltac simpl_run := cbn -[hasValidCredentials exchangeParams Z.sub Z.ltb Z.leb].

(** X5: the refresh. When the cached credentials are not valid, a user is
    signed in, the identity provider hands out a session whose id token is
    [jwt] and the exchange resolves with [d], [authUser] resolves [true];
    the cache then holds the credentials built for the identity pool with
    the single login [authenticator |-> jwt], filled in from [d]; the
    region is the configured one, the user is kept, and the outside calls
    are, in this order and once each: current user, session, region
    update, exchange. *)
Theorem authUser_refresh
    (s : State) (user : CognitoUser) (err : JsVal) (jwt : string)
    (d : CredentialData) :
  outcome (hasValidCredentials env s) = Resolved false ->
  currentUser s = Some user ->
  getSession env user = (err, Some jwt) ->
  truthy err = false ->
  getPromise env (exchangeParams config jwt) = Resolved d ->
  outcome (authUser config env s) = Resolved true /\
  credentials (final (authUser config env s))
    = Some (resolved (newCognitoIdentityCredentials (exchangeParams config jwt)) d) /\
  config_region (final (authUser config env s)) = Some (cognito_REGION config) /\
  currentUser (final (authUser config env s)) = Some user /\
  calls (authUser config env s)
    = [GetCurrentUser (cognito_USER_POOL_ID config) (cognito_APP_CLIENT_ID config);
       GetSession user;
       ConfigUpdate (cognito_REGION config);
       GetPromise (exchangeParams config jwt)].
Proof.
  intros Hvalid Huser Hsession Herr Hpromise.
  destruct (hasValidCredentials_final s) as [_ [_ Hu]].
  rewrite (authUser_slow_path s Hvalid). cbv zeta.
  rewrite Huser, Hsession, Herr, Hpromise. simpl_run.
  rewrite Hu, Huser. repeat split.
Qed.

(** X6: after such a refresh the next call of [authUser] is served from the
    cache, without any outside call, provided the clock then reads less
    than the new expiry minus 60000 ms. *)
Theorem authUser_refresh_is_reused
    (s : State) (user : CognitoUser) (err : JsVal) (jwt : string)
    (d : CredentialData) :
  outcome (hasValidCredentials env s) = Resolved false ->
  currentUser s = Some user ->
  getSession env user = (err, Some jwt) ->
  truthy err = false ->
  getPromise env (exchangeParams config jwt) = Resolved d ->
  now env (clockReads (final (authUser config env s)))
    < data_expiration d - 60000 ->
  outcome (authUser config env (final (authUser config env s))) = Resolved true /\
  calls (authUser config env (final (authUser config env s))) = [].
Proof.
  intros Hvalid Huser Hsession Herr Hpromise.
  rewrite (authUser_slow_path s Hvalid). cbv zeta.
  rewrite Huser, Hsession, Herr, Hpromise.
  cbn [final]. intros Hnow.
  match goal with
  | |- context [authUser config env ?s1] =>
      assert (Hfast : outcome (hasValidCredentials env s1) = Resolved true)
  end.
  { rewrite hasValidCredentials_run. simpl_run.
    f_equal. apply Z.ltb_lt. exact Hnow. }
  rewrite (authUser_fast_path config env _ Hfast). split; reflexivity.
Qed.

(** X7: when the exchange fails with [e], [authUser] rejects with [e]
    itself, and since the credentials object is assigned before its
    promise settles, the cache is left holding the new object, not what
    was cached before: it has the parameters of this exchange, no keys
    and no expiry, and as identity id whatever the failed exchange had
    put there. *)
Theorem authUser_exchange_failure
    (s : State) (user : CognitoUser) (err : JsVal) (jwt : string) (e : JsVal) :
  outcome (hasValidCredentials env s) = Resolved false ->
  currentUser s = Some user ->
  getSession env user = (err, Some jwt) ->
  truthy err = false ->
  getPromise env (exchangeParams config jwt) = Rejected e ->
  outcome (authUser config env s) = Rejected e /\
  exists c,
    credentials (final (authUser config env s)) = Some c /\
    params c = exchangeParams config jwt /\
    accessKeyId c = None /\ secretAccessKey c = None /\
    sessionToken c = None /\ expireTime c = None /\
    identityId c = getPromise_identityId env (exchangeParams config jwt).
Proof.
  intros Hvalid Huser Hsession Herr Hpromise.
  rewrite (authUser_slow_path s Hvalid). cbv zeta.
  rewrite Huser, Hsession, Herr, Hpromise. simpl_run.
  split; [reflexivity |].
  eexists. split; [reflexivity |]. repeat split.
Qed.

Lemma hasValidCredentials_outcome (s : State) :
  outcome (hasValidCredentials env s) = Resolved true \/
  outcome (hasValidCredentials env s) = Resolved false.
Proof.
  rewrite hasValidCredentials_run.
  destruct (credentials s); simpl_run; [| auto].
  destruct (_ <? _); auto.
Qed.

(** X8: [authUser] answers [false] only when nobody is signed in: it has
    then asked the identity provider for the current user, nothing else,
    and has left the cached credentials alone. *)
Theorem authUser_false_only_without_user (s : State) :
  outcome (authUser config env s) = Resolved false ->
  currentUser s = None /\
  outcome (hasValidCredentials env s) = Resolved false /\
  credentials (final (authUser config env s)) = credentials s /\
  calls (authUser config env s)
    = [GetCurrentUser (cognito_USER_POOL_ID config) (cognito_APP_CLIENT_ID config)].
Proof.
  destruct (hasValidCredentials_outcome s) as [Hvalid | Hvalid].
  - rewrite (authUser_fast_path config env s Hvalid). discriminate.
  - destruct (hasValidCredentials_final s) as [Hc _].
    rewrite (authUser_slow_path s Hvalid). cbv zeta.
    destruct (currentUser s) as [user |].
    + destruct (getSession env user) as [err session].
      destruct (truthy err); [discriminate |].
      destruct session; [| discriminate].
      destruct (getPromise env _); discriminate.
    + simpl_run. intros _. auto.
Qed.

(** X9: whatever happens, [authUser] reads the clock at most once, and
    it replaces the cached credentials only in a run that calls the
    exchanger. *)
Theorem authUser_touches_cache_only_on_exchange (s : State) :
  (clockReads (final (authUser config env s)) <= S (clockReads s))%nat /\
  (credentials (final (authUser config env s)) = credentials s \/
   exists p, In (GetPromise p) (calls (authUser config env s))).
Proof.
  assert (Hclock : (clockReads (final (hasValidCredentials env s))
                    <= S (clockReads s))%nat).
  { rewrite hasValidCredentials_run. destruct (credentials s); simpl_run; lia. }
  destruct (hasValidCredentials_final s) as [Hc [_ Hu]].
  destruct (hasValidCredentials_outcome s) as [Hvalid | Hvalid].
  - rewrite (authUser_fast_path config env s Hvalid). simpl_run.
    split; [lia | left; reflexivity].
  - rewrite (authUser_slow_path s Hvalid). cbv zeta.
    destruct (currentUser s) as [user |] eqn:Euser.
    + destruct (getSession env user) as [err session].
      destruct (truthy err); simpl_run; [auto |].
      destruct session as [jwt |]; simpl_run; [| auto].
      destruct (getPromise env _); simpl_run.
      all: split; [exact Hclock | right].
      all: eexists; right; right; right; left; reflexivity.
    + simpl_run. auto.
Qed.

(** X10: no retry. One call of [authUser] makes its outside calls in one
    of four shapes only: none; the current-user query; that and one
    session request; or those two, one region update and one exchange. *)
Theorem authUser_calls_once_each (s : State) :
  let asked := GetCurrentUser (cognito_USER_POOL_ID config)
                              (cognito_APP_CLIENT_ID config) in
  calls (authUser config env s) = [] \/
  calls (authUser config env s) = [asked] \/
  (exists user, calls (authUser config env s) = [asked; GetSession user]) \/
  (exists user jwt,
      calls (authUser config env s)
        = [asked; GetSession user; ConfigUpdate (cognito_REGION config);
           GetPromise (exchangeParams config jwt)]).
Proof.
  cbv zeta.
  destruct (hasValidCredentials_outcome s) as [Hvalid | Hvalid].
  - rewrite (authUser_fast_path config env s Hvalid). left. reflexivity.
  - rewrite (authUser_slow_path s Hvalid). cbv zeta.
    destruct (currentUser s) as [user |]; [| right; left; reflexivity].
    destruct (getSession env user) as [err session].
    destruct (truthy err); [right; right; left; eexists; reflexivity |].
    destruct session as [jwt |];
      [| right; right; left; eexists; reflexivity].
    destruct (getPromise env _); right; right; right;
      exists user, jwt; reflexivity.
Qed.

(** What [signOutUser] leaves behind. *)
Lemma signOutUser_final (s : State) :
  currentUser (final (signOutUser config s)) = None /\
  clockReads (final (signOutUser config s)) = clockReads s /\
  (credentials (final (signOutUser config s)) = None \/
   credentials (final (signOutUser config s)) = Some emptyCredentials).
Proof.
  unfold_lib. simpl_lib.
  destruct (currentUser s) eqn:Euser; destruct (credentials s) eqn:Ecred;
    simpl_lib; rewrite ?Ecred, ?Euser; simpl_lib; auto.
Qed.

(** X11: after [signOutUser], as long as the clock does not read below
    -60000, [authUser] answers [false]: the empty credential set has no
    expiry, so it never counts as valid, and the only outside call is the
    current-user query. *)
Theorem signOutUser_then_authUser (s : State) :
  - 60000 <= now env (clockReads s) ->
  outcome (authUser config env (final (signOutUser config s))) = Resolved false /\
  calls (authUser config env (final (signOutUser config s)))
    = [GetCurrentUser (cognito_USER_POOL_ID config) (cognito_APP_CLIENT_ID config)].
Proof.
  intros Hclock.
  destruct (signOutUser_final s) as [Huser [Hreads Hcred]].
  assert (Hvalid : outcome (hasValidCredentials env (final (signOutUser config s)))
                   = Resolved false).
  { rewrite hasValidCredentials_run.
    destruct Hcred as [-> | ->]; cbn [outcome]; [reflexivity |].
    f_equal. apply Z.ltb_ge. rewrite Hreads.
    unfold expireTime_toNumber, emptyCredentials, newCognitoIdentityCredentials.
    cbn [expireTime]. lia. }
  rewrite (authUser_slow_path _ Hvalid). cbv zeta.
  rewrite Huser. split; reflexivity.
Qed.

(** [invokeApig] once [authUser] has answered [true]. *)
Lemma invokeApig_authenticated
    (args : ApigArgs) (s s1 : State) (evs : list Event) (c : Credentials) :
  authUser config env s = mkRun (Resolved true) s1 evs ->
  credentials s1 = Some c ->
  let method := default "GET" (method args) in
  let client := {| accessKey := accessKeyId c;
                   secretKey := secretAccessKey c;
                   sigv4_sessionToken := sessionToken c;
                   region := apiGateway_REGION config;
                   endpoint := apiGateway_URL config |} in
  let request := {| sign_method := method; sign_path := path args;
                    sign_headers := defaultValue (VObj []) (headers args);
                    sign_queryParams := defaultValue (VObj []) (queryParams args);
                    sign_body := body args |} in
  let signedRequest := signRequest env client request in
  let init := {| fetch_method := method;
                 fetch_headers := signed_headers signedRequest;
                 fetch_body := if truthy (body args)
                               then VStr (JSON_stringify env (body args))
                               else body args |} in
  let fetched := fetch env (signed_url signedRequest) init in
  invokeApig config env args s =
    mkRun (match fetched with
           | Resolved results =>
               if status results =? 200 then json results
               else match text results with
                    | Resolved message => Rejected (newError message)
                    | Rejected e => Rejected e
                    end
           | Rejected e => Rejected e
           end)
          s1
          (evs ++ [SignRequest client request;
                   Fetch (signed_url signedRequest) init fetched]).
Proof.
  intros Hauth Hcred. cbv zeta.
  unfold invokeApig. rewrite (bind_resolved _ _ _ _ _ _ Hauth).
  unfold_lib. simpl_lib. rewrite Hcred. simpl_lib.
  destruct (fetch env _ _) as [results | e]; simpl_lib; [| reflexivity].
  destruct (status results =? 200); simpl_lib.
  - destruct (json results); reflexivity.
  - destruct (text results); reflexivity.
Qed.

(** X12: an authenticated [invokeApig] signs once and fetches once, in
    that order. The signer gets the keys and session token of the cached
    credentials, the gateway's region and URL, and the request as the
    caller gave it, with method "GET" for a method left out and headers
    [{}] and query parameters [{}] for those left out or [undefined];
    [fetch] gets the signer's URL and the
    signer's headers in place of the caller's, and as body
    [JSON.stringify(body)] when [body] is truthy, else [body] as it is. *)
Theorem invokeApig_signs_then_fetches (args : ApigArgs) (s : State) :
  outcome (authUser config env s) = Resolved true ->
  exists c,
    credentials (final (authUser config env s)) = Some c /\
    let client := {| accessKey := accessKeyId c;
                     secretKey := secretAccessKey c;
                     sigv4_sessionToken := sessionToken c;
                     region := apiGateway_REGION config;
                     endpoint := apiGateway_URL config |} in
    let request := {| sign_method := default "GET" (method args);
                      sign_path := path args;
                      sign_headers := defaultValue (VObj []) (headers args);
                      sign_queryParams := defaultValue (VObj []) (queryParams args);
                      sign_body := body args |} in
    let signedRequest := signRequest env client request in
    let init := {| fetch_method := default "GET" (method args);
                   fetch_headers := signed_headers signedRequest;
                   fetch_body := if truthy (body args)
                                 then VStr (JSON_stringify env (body args))
                                 else body args |} in
    filter isSignOrFetch (calls (invokeApig config env args s))
      = [SignRequest client request;
         Fetch (signed_url signedRequest) init
               (fetch env (signed_url signedRequest) init)].
Proof.
  intros Hauth.
  destruct (authUser_true_credentials config env s Hauth) as [c Hc].
  exists c. split; [exact Hc |]. cbv zeta.
  pose proof (authUser_no_sign_or_fetch config env s) as Hquiet.
  destruct (authUser config env s) as [o s1 evs] eqn:Erun.
  cbn [outcome final calls] in Hauth, Hc, Hquiet. subst o.
  rewrite (invokeApig_authenticated args s s1 evs c Erun Hc).
  cbn [calls]. rewrite filter_app, Hquiet. reflexivity.
Qed.

(** X13: when [authUser] rejects (the session or the exchange failed),
    [invokeApig] and [s3Upload] reject with the same error and do nothing
    further: no signing, no fetch, no upload, no log. *)
Theorem callers_propagate_authUser_rejection
    (args : ApigArgs) (file : File) (s : State) (err : JsVal) :
  outcome (authUser config env s) = Rejected err ->
  (outcome (invokeApig config env args s) = Rejected err /\
   calls (invokeApig config env args s) = calls (authUser config env s) /\
   final (invokeApig config env args s) = final (authUser config env s)) /\
  (outcome (s3Upload config env file s) = Rejected err /\
   calls (s3Upload config env file s) = calls (authUser config env s) /\
   final (s3Upload config env file s) = final (authUser config env s)).
Proof.
  intros Hauth.
  destruct (authUser config env s) as [o s1 evs] eqn:Erun.
  cbn [outcome final calls] in Hauth |- *. subst o.
  unfold invokeApig, s3Upload.
  rewrite !(bind_rejected _ _ _ _ _ _ Erun). cbn. auto.
Qed.

(** X14: a failure of the transport is passed on as it is: when [fetch]
    rejects with [err], or when the status is not 200 and reading the body
    text rejects with [err], [invokeApig] rejects with [err]. *)
Theorem invokeApig_transport_failure
    (args : ApigArgs) (s : State) (url : string) (init : FetchInit)
    (fetched : Outcome Response) (err : JsVal) :
  In (Fetch url init fetched) (calls (invokeApig config env args s)) ->
  fetched = Rejected err \/
  (exists results, fetched = Resolved results /\ status results <> 200 /\
                   text results = Rejected err) ->
  outcome (invokeApig config env args s) = Rejected err.
Proof.
  intros HIn Hfailed.
  assert (Hprovider : forall e, In e (calls (authUser config env s)) ->
                                isProviderCall e = true)
    by (intros e; apply authUser_calls).
  destruct (authUser config env s) as [[[|] | e] s1 evs] eqn:Erun;
    cbn [calls] in Hprovider.
  - assert (Hc : exists c, credentials s1 = Some c).
    { pose proof (authUser_true_credentials config env s) as H.
      rewrite Erun in H. cbn in H. auto. }
    destruct Hc as [c Hc].
    rewrite (invokeApig_authenticated args s s1 evs c Erun Hc) in HIn |- *.
    cbv zeta in HIn |- *. cbn [calls outcome] in HIn |- *.
    apply in_app_or in HIn.
    destruct HIn as [HIn | [HIn | [HIn | []]]];
      [apply Hprovider in HIn; discriminate | discriminate |].
    injection HIn as _ _ Hfetched. rewrite Hfetched.
    destruct Hfailed as [-> | [results [-> [Hstatus Htext]]]];
      [reflexivity |].
    destruct (Z.eqb_spec (status results) 200); [contradiction |].
    rewrite Htext. reflexivity.
  - exfalso. revert HIn. unfold invokeApig.
    rewrite (bind_resolved _ _ _ _ _ _ Erun). simpl_lib.
    rewrite app_nil_r. intros HIn. apply Hprovider in HIn. discriminate.
  - exfalso. revert HIn. unfold invokeApig.
    rewrite (bind_rejected _ _ _ _ _ _ Erun). simpl_lib.
    intros HIn. apply Hprovider in HIn. discriminate.
Qed.

Lemma uploads_app (evs evs' : list Event) :
  uploads (evs ++ evs') = (uploads evs ++ uploads evs')%list.
Proof.
  induction evs as [| e evs IH]; [reflexivity |].
  destruct e; cbn; rewrite ?IH; reflexivity.
Qed.

Lemma authUser_uploads_nothing (s : State) :
  uploads (calls (authUser config env s)) = [].
Proof.
  run_lib; reflexivity.
Qed.

(** [s3Upload] once [authUser] has answered [true]. *)
Lemma s3Upload_authenticated
    (file : File) (s s1 : State) (evs : list Event) (c : Credentials) :
  authUser config env s = mkRun (Resolved true) s1 evs ->
  credentials s1 = Some c ->
  let filename := template (identityId c) ++ "-"
                    ++ string_of_Z (now env (clockReads s1)) ++ "-"
                    ++ name file in
  let p := {| Key := filename; Body := file; ContentType := type file;
              ACL := "public-read" |} in
  s3Upload config env file s =
    mkRun (s3_upload env (s3_BUCKET config) p) (tick s1)
          (evs ++ [Log ("filename: " ++ filename);
                   S3Upload (s3_BUCKET config) p]).
Proof.
  intros Hauth Hcred. cbv zeta.
  unfold s3Upload. rewrite (bind_resolved _ _ _ _ _ _ Hauth).
  unfold_lib. simpl_lib. rewrite Hcred. simpl_lib.
  destruct (s3_upload env _ _); reflexivity.
Qed.

(** X15: when [authUser] answers [false], [s3Upload] logs
    "User not authenticated.", rejects with the error
    "User is not logged in" and hands nothing to the storage service. *)
Theorem s3Upload_unauthenticated (file : File) (s : State) :
  outcome (authUser config env s) = Resolved false ->
  outcome (s3Upload config env file s)
    = Rejected (newError "User is not logged in") /\
  uploads (calls (s3Upload config env file s)) = [] /\
  calls (s3Upload config env file s)
    = (calls (authUser config env s) ++ [Log "User not authenticated."])%list.
Proof.
  intros Hauth.
  pose proof (authUser_uploads_nothing s) as Hquiet.
  destruct (authUser config env s) as [o s1 evs] eqn:Erun.
  cbn [outcome calls] in Hauth, Hquiet |- *. subst o.
  unfold s3Upload. rewrite (bind_resolved _ _ _ _ _ _ Erun). cbn.
  split; [reflexivity | split; [| reflexivity]].
  rewrite uploads_app, Hquiet. reflexivity.
Qed.

(** X16: an authenticated [s3Upload] makes exactly one upload, to the
    configured bucket, with the file as body, the file's type as content
    type and the ACL "public-read"; and it settles exactly as the storage
    service's promise does, value or error unchanged. *)
Theorem s3Upload_uploads_once (file : File) (s : State) :
  outcome (authUser config env s) = Resolved true ->
  exists p,
    uploads (calls (s3Upload config env file s)) = [(s3_BUCKET config, p)] /\
    Body p = file /\ ContentType p = type file /\ ACL p = "public-read" /\
    outcome (s3Upload config env file s) = s3_upload env (s3_BUCKET config) p.
Proof.
  intros Hauth.
  destruct (authUser_true_credentials config env s Hauth) as [c Hc].
  pose proof (authUser_uploads_nothing s) as Hquiet.
  destruct (authUser config env s) as [o s1 evs] eqn:Erun.
  cbn [outcome final calls] in Hauth, Hc, Hquiet. subst o.
  rewrite (s3Upload_authenticated file s s1 evs c Erun Hc). cbv zeta.
  eexists. cbn [calls outcome].
  rewrite uploads_app, Hquiet. cbn [uploads app].
  repeat split.
Qed.

(** X17: two authenticated uploads of files of the same name under the
    same identity id get different keys whenever the clock reads
    differently at the two uploads. *)
Theorem s3Upload_keys_differ_in_time
    (file file' : File) (s s' : State) (c c' : Credentials) :
  outcome (authUser config env s) = Resolved true ->
  outcome (authUser config env s') = Resolved true ->
  credentials (final (authUser config env s)) = Some c ->
  credentials (final (authUser config env s')) = Some c' ->
  identityId c = identityId c' ->
  name file = name file' ->
  now env (clockReads (final (authUser config env s)))
    <> now env (clockReads (final (authUser config env s'))) ->
  uploadKeys (calls (s3Upload config env file s))
    <> uploadKeys (calls (s3Upload config env file' s')).
Proof.
  intros Hauth Hauth' Hc Hc' Hid Hname Hclock.
  pose proof (authUser_no_upload config env s) as Hquiet.
  pose proof (authUser_no_upload config env s') as Hquiet'.
  destruct (authUser config env s) as [o s1 evs] eqn:Erun.
  destruct (authUser config env s') as [o' s1' evs'] eqn:Erun'.
  cbn [outcome final calls] in *. subst o o'.
  rewrite (s3Upload_authenticated file s s1 evs c Erun Hc).
  rewrite (s3Upload_authenticated file' s' s1' evs' c' Erun' Hc').
  cbv zeta. cbn [calls].
  rewrite !uploadKeys_app, Hquiet, Hquiet'. cbn [uploadKeys app Key].
  rewrite Hid, Hname. intros Hkeys. injection Hkeys as Hkeys.
  apply append_cancel_l in Hkeys.
  apply (append_cancel_l "-") in Hkeys.
  apply (append_cancel_r ("-" ++ name file')) in Hkeys.
  apply Hclock. apply string_of_Z_inj. exact Hkeys.
Qed.
End MoreAuthProperties.

(** ** The further properties at work on the concrete world *)

Lemma authUser_refresh_witness :
  outcome (authUser sampleConfig sampleEnv signedIn) = Resolved true /\
  credentials (final (authUser sampleConfig sampleEnv signedIn))
    = Some (resolved (newCognitoIdentityCredentials
                        (exchangeParams sampleConfig "abc")) sampleData) /\
  config_region (final (authUser sampleConfig sampleEnv signedIn))
    = Some "us-east-1" /\
  currentUser (final (authUser sampleConfig sampleEnv signedIn)) = Some alice /\
  calls (authUser sampleConfig sampleEnv signedIn)
    = [GetCurrentUser "us-east-1_Ab12" "client-1"; GetSession alice;
       ConfigUpdate "us-east-1";
       GetPromise (exchangeParams sampleConfig "abc")].
Proof.
  apply (authUser_refresh sampleConfig sampleEnv signedIn alice VNull "abc"
           sampleData); reflexivity.
Defined.

Lemma authUser_refresh_is_reused_witness :
  outcome (authUser sampleConfig sampleEnv
             (final (authUser sampleConfig sampleEnv signedIn)))
    = Resolved true /\
  calls (authUser sampleConfig sampleEnv
           (final (authUser sampleConfig sampleEnv signedIn))) = [].
Proof.
  apply (authUser_refresh_is_reused sampleConfig sampleEnv signedIn alice
           VNull "abc" sampleData); reflexivity.
Defined.

(** The credentials cached before the failed exchange, though expired,
    had keys; what is left has none, and carries the identity id the
    exchange got before it failed. *)
Lemma authUser_exchange_failure_witness :
  outcome (authUser sampleConfig
             (withPromise (Rejected exchangeFailed) (Some "us-east-1:1f2e")
                          sampleEnv)
             (cachedUntil 1000000))
    = Rejected exchangeFailed /\
  credentials (final (authUser sampleConfig
                        (withPromise (Rejected exchangeFailed)
                                     (Some "us-east-1:1f2e") sampleEnv)
                        (cachedUntil 1000000)))
    = Some {| params := exchangeParams sampleConfig "abc";
              accessKeyId := None; secretAccessKey := None;
              sessionToken := None; expireTime := None;
              identityId := Some "us-east-1:1f2e" |}.
Proof.
  destruct (authUser_exchange_failure sampleConfig
              (withPromise (Rejected exchangeFailed) (Some "us-east-1:1f2e")
                           sampleEnv)
              (cachedUntil 1000000) alice VNull "abc" exchangeFailed
              eq_refl eq_refl eq_refl eq_refl eq_refl)
    as [Hout [c [Hc _]]].
  split; [exact Hout |].
  rewrite Hc. cbn in Hc. injection Hc as <-. reflexivity.
Defined.

Lemma authUser_false_only_without_user_witness :
  currentUser signedOut = None /\
  outcome (hasValidCredentials sampleEnv signedOut) = Resolved false /\
  credentials (final (authUser sampleConfig sampleEnv signedOut))
    = credentials signedOut /\
  calls (authUser sampleConfig sampleEnv signedOut)
    = [GetCurrentUser "us-east-1_Ab12" "client-1"].
Proof.
  apply (authUser_false_only_without_user sampleConfig sampleEnv signedOut).
  reflexivity.
Defined.

Lemma signOutUser_then_authUser_witness :
  outcome (authUser sampleConfig sampleEnv
             (final (signOutUser sampleConfig (cachedUntil 4600000))))
    = Resolved false /\
  calls (authUser sampleConfig sampleEnv
           (final (signOutUser sampleConfig (cachedUntil 4600000))))
    = [GetCurrentUser "us-east-1_Ab12" "client-1"].
Proof.
  apply (signOutUser_then_authUser sampleConfig sampleEnv (cachedUntil 4600000)).
  cbn. lia.
Defined.

Lemma invokeApig_signs_then_fetches_witness :
  filter isSignOrFetch
    (calls (invokeApig sampleConfig (withStringify (fun _ => helloJson) sampleEnv)
              createNote (cachedUntil 4600000)))
    = [SignRequest
         {| accessKey := Some "AKIA1"; secretKey := Some "secret";
            sigv4_sessionToken := Some "token"; region := "us-east-1";
            endpoint := "https://api.example.com" |}
         {| sign_method := "POST"; sign_path := VStr "/notes";
            sign_headers := VObj []; sign_queryParams := VObj [];
            sign_body := VObj [("content", VStr "hello")] |};
       Fetch "https://api.example.com"
         {| fetch_method := "POST"; fetch_headers := VObj [];
            fetch_body := VStr helloJson |}
         (Resolved okResponse)] /\
  filter isSignOrFetch
    (calls (invokeApig sampleConfig sampleEnv listNotesUndefined
              (cachedUntil 4600000)))
    = [SignRequest
         {| accessKey := Some "AKIA1"; secretKey := Some "secret";
            sigv4_sessionToken := Some "token"; region := "us-east-1";
            endpoint := "https://api.example.com" |}
         {| sign_method := "GET"; sign_path := VStr "/notes";
            sign_headers := VObj []; sign_queryParams := VObj [];
            sign_body := VUndefined |};
       Fetch "https://api.example.com"
         {| fetch_method := "GET"; fetch_headers := VObj [];
            fetch_body := VUndefined |}
         (Resolved okResponse)].
Proof.
  split.
  - destruct (invokeApig_signs_then_fetches sampleConfig
                (withStringify (fun _ => helloJson) sampleEnv) createNote
                (cachedUntil 4600000) eq_refl) as [c [Hc Hcalls]].
    injection Hc as <-. exact Hcalls.
  - destruct (invokeApig_signs_then_fetches sampleConfig sampleEnv
                listNotesUndefined (cachedUntil 4600000) eq_refl)
      as [c [Hc Hcalls]].
    injection Hc as <-. exact Hcalls.
Defined.

Lemma callers_propagate_authUser_rejection_witness :
  outcome (invokeApig sampleConfig (withSession (sessionExpired, None) sampleEnv)
             listNotes signedIn)
    = Rejected sessionExpired /\
  outcome (s3Upload sampleConfig (withSession (sessionExpired, None) sampleEnv)
             photo signedIn)
    = Rejected sessionExpired.
Proof.
  destruct (callers_propagate_authUser_rejection sampleConfig
              (withSession (sessionExpired, None) sampleEnv)
              listNotes photo signedIn sessionExpired eq_refl)
    as [[Hinvoke _] [Hupload _]].
  split; [exact Hinvoke | exact Hupload].
Defined.

Lemma invokeApig_transport_failure_witness :
  outcome (invokeApig sampleConfig (withFetch (Rejected networkDown) sampleEnv)
             listNotes (cachedUntil 4600000))
    = Rejected networkDown.
Proof.
  apply (invokeApig_transport_failure sampleConfig
           (withFetch (Rejected networkDown) sampleEnv) listNotes
           (cachedUntil 4600000) "https://api.example.com" listNotesInit
           (Rejected networkDown) networkDown).
  - cbn. right. left. reflexivity.
  - left. reflexivity.
Defined.

Lemma s3Upload_unauthenticated_witness :
  outcome (s3Upload sampleConfig sampleEnv photo signedOut)
    = Rejected (newError "User is not logged in") /\
  uploads (calls (s3Upload sampleConfig sampleEnv photo signedOut)) = [] /\
  calls (s3Upload sampleConfig sampleEnv photo signedOut)
    = [GetCurrentUser "us-east-1_Ab12" "client-1";
       Log "User not authenticated."].
Proof.
  apply (s3Upload_unauthenticated sampleConfig sampleEnv photo signedOut).
  reflexivity.
Defined.

Lemma s3Upload_uploads_once_witness :
  uploads (calls (s3Upload sampleConfig sampleEnv photo (cachedUntil 4600000)))
    = [("notes-uploads",
        {| Key := "us-east-1:1f2e-1000001-photo.png"; Body := photo;
           ContentType := "image/png"; ACL := "public-read" |})] /\
  outcome (s3Upload sampleConfig sampleEnv photo (cachedUntil 4600000))
    = Resolved (VObj [("Key", VStr "us-east-1:1f2e-1000001-photo.png")]).
Proof.
  destruct (s3Upload_uploads_once sampleConfig sampleEnv photo
              (cachedUntil 4600000) eq_refl)
    as [p [Huploads [_ [_ [_ Houtcome]]]]].
  assert (Hp : p = {| Key := "us-east-1:1f2e-1000001-photo.png"; Body := photo;
                      ContentType := "image/png"; ACL := "public-read" |}).
  { cbn in Huploads. injection Huploads as <-. reflexivity. }
  subst p. split; [exact Huploads | exact Houtcome].
Defined.

Lemma s3Upload_keys_differ_in_time_witness :
  uploadKeys (calls (s3Upload sampleConfig sampleEnv photo (cachedUntilAt 4600000 0)))
    <> uploadKeys (calls (s3Upload sampleConfig sampleEnv photo
                            (cachedUntilAt 4600000 5))) /\
  uploadKeys (calls (s3Upload sampleConfig sampleEnv photo
                       (cachedUntilAt 4600000 5)))
    = ["us-east-1:1f2e-1000006-photo.png"].
Proof.
  split; [| reflexivity].
  apply (s3Upload_keys_differ_in_time sampleConfig sampleEnv photo photo
           (cachedUntilAt 4600000 0) (cachedUntilAt 4600000 5)
           (credentialsUntil 4600000) (credentialsUntil 4600000));
    try reflexivity.
  cbn. discriminate.
Defined.
